(** * Platform service of impact_profile_api: a shallow embedding

    The development follows [src/services/platform_service.py]: Python
    dictionaries are finite maps with string keys, exceptions are values of
    an error type, and the calls to the document store and to the logger are
    threaded through an explicit world. *)

From Stdlib Require Import ZArith NArith Lia Ascii String.
From stdpp Require Import gmap strings list fin_maps sorting.

Local Open Scope string_scope.
Local Open Scope list_scope.
Local Open Scope Z_scope.

(** ** Python values *)

(** JSON-like payloads: the values a request body, a token or a breadcrumb
    is made of. *)
#[warnings="-register-all"]
Inductive value : Type :=
  | VNone
  | VBool (b : bool)
  | VInt (z : Z)
  | VStr (s : string)
  | VList (l : list value)
  | VDict (d : gmap string value).

(** ** Exceptions *)

(** The exception classes of [api_utils.flask_utils.exceptions] that the
    service names, and [PyException] for every other subclass of
    [Exception] (class name, message). *)
Inductive exn : Type :=
  | HTTPBadRequest (msg : string)
  | HTTPForbidden (msg : string)
  | HTTPNotFound (msg : string)
  | HTTPInternalServerError (msg : string)
  | PyException (cls msg : string).

(** [str(e)]: the message the exception was built with. *)
Definition exn_str (e : exn) : string :=
  match e with
  | HTTPBadRequest m | HTTPForbidden m | HTTPNotFound m
  | HTTPInternalServerError m => m
  | PyException _ m => m
  end.

Inductive result (A : Type) : Type :=
  | Ok (a : A)
  | Raise (e : exn).
Arguments Ok {A} a.
Arguments Raise {A} e.

(** ** Documents, queries, pages *)

(** A stored document: the identifier MongoDB assigned (an ObjectId, twelve
    bytes, here the number they spell) and the remaining fields. *)
Record document : Type := Document {
  doc_id : N;
  doc_fields : gmap string value
}.

Inductive direction : Type := Asc | Desc.

(** The filter handed to [collection.find]. *)
Record query : Type := Query {
  q_name : option string;
  q_after : option N
}.

Record Collection : Type := { coll_name : string }.

(** The dictionary [{'items', 'limit', 'has_more', 'next_cursor'}]. *)
Record page : Type := Page {
  items : list document;
  limit : Z;
  has_more : bool;
  next_cursor : option string
}.

(** ** The world: store state, the calls made on the store, the log *)

Inductive store_call : Type :=
  | CreateDocument (collection : string) (data : gmap string value)
  | GetDocument (collection : string) (document_id : string)
  | UpdateDocument (collection : string) (document_id : string)
                   (set_data : gmap string value)
  | GetCollection (collection : string)
  | Find (collection : Collection) (q : query) (sort_by : string)
         (order : direction) (n : Z).

Inductive log_level : Type := INFO | ERROR.

(** A log line: the level and the pieces of the f-string, literal text as
    [VStr] and interpolated values as they are. *)
Definition log_record : Type := log_level * list value.

Record world (S : Type) : Type := World {
  store : S;
  calls : list store_call;
  logs : list log_record
}.
Arguments World {S} _ _ _.
Arguments store {S} _.
Arguments calls {S} _.
Arguments logs {S} _.

(** The operations of the [MongoIO] singleton the service uses. Each one
    may raise and may change the store. *)
Record MongoIO (S : Type) : Type := {
  create_document : string → gmap string value → S → result string * S;
  get_document : string → string → S → result (option (gmap string value)) * S;
  update_document :
    string → string → gmap string value → S →
    result (option (gmap string value)) * S;
  get_collection : string → S → result Collection * S;
  find : Collection → query → string → direction → Z → S →
         result (list document) * S
}.
Arguments create_document {S} _ _ _ _.
Arguments get_document {S} _ _ _ _.
Arguments update_document {S} _ _ _ _ _.
Arguments get_collection {S} _ _ _.
Arguments find {S} _ _ _ _ _ _ _.

(** ** A state and exception monad *)

Definition M (S A : Type) : Type := world S → result A * world S.

Definition ret {S A} (a : A) : M S A := λ w, (Ok a, w).

Definition raise {S A} (e : exn) : M S A := λ w, (Raise e, w).

Definition bind {S A B} (m : M S A) (k : A → M S B) : M S B :=
  λ w, match m w with
       | (Ok a, w') => k a w'
       | (Raise e, w') => (Raise e, w')
       end.

(** [try: m except e: h e]. The effects of [m] up to the raise stay. *)
Definition try_except {S A} (m : M S A) (h : exn → M S A) : M S A :=
  λ w, match m w with
       | (Ok a, w') => (Ok a, w')
       | (Raise e, w') => h e w'
       end.

Declare Scope py_scope.
Delimit Scope py_scope with py.
Notation "x <~ m ;; k" := (bind m (λ x, k))
  (at level 100, m at next level, right associativity) : py_scope.
Notation "m ;;; k" := (bind m (λ _, k))
  (at level 100, right associativity) : py_scope.
Local Open Scope py_scope.

(** One call on the store: recorded, then performed. *)
Definition store_op {S A} (c : store_call) (op : S → result A * S) : M S A :=
  λ w, let '(r, s') := op (store w) in
       (r, World s' (calls w ++ [c]) (logs w)).

Definition logger_info {S} (msg : list value) : M S unit :=
  λ w, (Ok tt, World (store w) (calls w) (logs w ++ [(INFO, msg)])).

Definition logger_error {S} (msg : list value) : M S unit :=
  λ w, (Ok tt, World (store w) (calls w) (logs w ++ [(ERROR, msg)])).

(** [type(v).__name__] *)
Definition type_name (v : value) : string :=
  match v with
  | VNone => "NoneType"
  | VBool _ => "bool"
  | VInt _ => "int"
  | VStr _ => "str"
  | VList _ => "list"
  | VDict _ => "dict"
  end.

Definition no_get (v : value) : exn :=
  PyException "AttributeError"
    ("'" +:+ type_name v +:+ "' object has no attribute 'get'").

(** [token.get(key)]: [dict.get] on a dictionary, [AttributeError] on
    anything that has no [get]. *)
Definition py_get {S} (token : value) (key : string) : M S value :=
  match token with
  | VDict d => ret (default VNone (d !! key))
  | _ => raise (no_get token)
  end.

(** ** Identifiers *)

(** Modelled from the spec: the store's native identifier format, which is
    not part of the repository. The tests build identifiers with
    [ObjectId("507f1f77bcf86cd799439011")]: an identifier is twelve bytes
    and its text is their 24 lower-case hexadecimal digits. *)
Definition hex_digit (d : N) : ascii :=
  match d with
  | 0 => "0" | 1 => "1" | 2 => "2" | 3 => "3" | 4 => "4" | 5 => "5"
  | 6 => "6" | 7 => "7" | 8 => "8" | 9 => "9" | 10 => "a" | 11 => "b"
  | 12 => "c" | 13 => "d" | 14 => "e" | _ => "f"
  end%N%char.

(** Modelled from the spec: the value of a hexadecimal digit of either
    case, as bson reads an identifier. *)
Definition hex_value (c : ascii) : option N :=
  let n := N_of_ascii c in
  if ((48 <=? n) && (n <=? 57))%N then Some (n - 48)%N
  else if ((97 <=? n) && (n <=? 102))%N then Some (n - 87)%N
  else if ((65 <=? n) && (n <=? 70))%N then Some (n - 55)%N
  else None.

(** Modelled from the spec: the last [k] hexadecimal digits of [n], put
    before [acc]. *)
Fixpoint hex_of (k : nat) (n : N) (acc : string) : string :=
  match k with
  | O => acc
  | S k' => hex_of k' (n / 16)%N (String (hex_digit (n mod 16)%N) acc)
  end.

(** ASCII white space, which [bytes.fromhex] skips between bytes. *)
Definition is_space (c : ascii) : bool :=
  let n := N_of_ascii c in
  ((9 <=? n) && (n <=? 13) || (n =? 32))%N.

(** Modelled from the spec: [bytes.fromhex(s)], read as the number the
    bytes spell after those of [acc]. White space is skipped before a
    byte; a byte is two hexadecimal digits side by side; anything else is
    the [ValueError] of Python, here [None]. *)
Fixpoint fromhex (s : string) (acc : N) : option N :=
  match s with
  | EmptyString => Some acc
  | String c s' =>
      if is_space c then fromhex s' acc
      else
        match hex_value c, s' with
        | Some top, String c' s'' =>
            match hex_value c' with
            | Some bot => fromhex s'' (acc * 256 + (top * 16 + bot))%N
            | None => None
            end
        | _, _ => None
        end
  end.

(** Modelled from the spec: [str(oid)], the text of an identifier as it
    appears in [next_cursor]. *)
Definition oid_str (n : N) : string := hex_of 24 n "".

(** Modelled from the spec: [ObjectId(s)], the parse of a cursor in the
    store's native format, as bson does it for a string: the length is 24
    and [bytes.fromhex] reads it; [None] where bson raises [InvalidId]. A
    text of 24 characters with blanks in it is read too, as fewer than
    twelve bytes; the number those bytes spell stands for it here. *)
Definition parse_object_id (s : string) : option N :=
  if Nat.eqb (String.length s) 24 then fromhex s 0%N else None.

(** The identifiers twelve bytes can spell. *)
Definition valid_oid (n : N) : Prop := (n < 16 ^ 24)%N.

(** ** The pagination engine *)

(** [sep.join(l)] *)
Fixpoint str_join (sep : string) (l : list string) : string :=
  match l with
  | [] => ""
  | [x] => x
  | x :: rest => x +:+ sep +:+ str_join sep rest
  end.

(** Modelled from the spec: the order is exactly ["asc"] or ["desc"]. *)
Definition parse_order (order : string) : option direction :=
  if String.eqb order "asc" then Some Asc
  else if String.eqb order "desc" then Some Desc
  else None.

(** Modelled from the spec: the cursor of a request, absent on the first
    page, else it has to parse. The outer [None] is the failure. *)
Definition parse_cursor (after_id : option string) : option (option N) :=
  match after_id with
  | None => Some None
  | Some s =>
      match parse_object_id s with
      | Some cursor => Some (Some cursor)
      | None => None
      end
  end.

(** Modelled from the spec: page-boundary detection on the [limit + 1]
    candidates (section 4.1, steps 3 and 4). More than [limit] rows:
    [has_more], the cursor is the identifier of row [limit], the row after
    it is dropped. *)
Definition page_of_rows (limit : Z) (rows : list document) : page :=
  let more := limit <? Z.of_nat (length rows) in
  Page (take (Z.to_nat limit) rows) limit more
       (if more
        then (λ d, oid_str (doc_id d)) <$> rows !! (Z.to_nat limit - 1)%nat
        else None).

Section Engine.
Context {S : Type} (mongo : MongoIO S).

(** [collection.find(query).sort(...).limit(n)], read as a list *)
Definition collection_find (collection : Collection) (q : query)
    (sort_by : string) (order : direction) (n : Z)
  : M S (list document) :=
  store_op (Find collection q sort_by order n)
           (find mongo collection q sort_by order n).

(** Modelled from the spec: [execute_infinite_scroll_query] of
    [api_utils.mongo_utils], which the service imports and which is not
    part of the repository. Section 4.1 of the specification gives the
    checks in this order (limit, sort field, order, cursor) and the
    algorithm: the cursor predicate is on the identifier, the sort is by
    the requested field with the identifier ascending as tie-break,
    [limit + 1] rows are fetched. The texts of the errors are those of
    section 4.1. The repository's tests expect the same texts for the
    limit and the order and the same opening for the sort field
    ([test_get_users_invalid_limit_too_small], [..._too_large],
    [..._invalid_sort_by], [..._invalid_order]); for the cursor
    [test_get_users_invalid_after_id] expects a text that names MongoDB's
    ObjectId where section 4.1 says "identifier". *)
Definition execute_infinite_scroll_query (collection : Collection)
    (name after_id : option string) (limit : Z) (sort_by order : string)
    (allowed_sort_fields : list string) : M S page :=
  if limit <? 1 then raise (HTTPBadRequest "limit must be >= 1")
  else if 100 <? limit then raise (HTTPBadRequest "limit must be <= 100")
  else if negb (bool_decide (sort_by ∈ allowed_sort_fields)) then
    raise (HTTPBadRequest
             ("sort_by must be one of: " +:+ str_join ", " allowed_sort_fields))
  else
    match parse_order order with
    | None => raise (HTTPBadRequest "order must be 'asc' or 'desc'")
    | Some dir =>
        match parse_cursor after_id with
        | None =>
            raise (HTTPBadRequest "after_id must be a valid identifier")
        | Some cursor =>
            rows <~ collection_find collection (Query name cursor)
                      sort_by dir (limit + 1) ;;
            ret (page_of_rows limit rows)
        end
    end.
End Engine.

(** ** The service *)

(** Allowed sort fields for Platform domain *)
Definition ALLOWED_SORT_FIELDS : list string :=
  ["name"; "description"; "status"; "created.at_time"; "saved.at_time"].

(** The list [_validate_update_data] and [update_platform] each spell
    out. *)
Definition restricted_fields : list string := ["_id"; "created"; "saved"].

Module PlatformService.
Section Service.
Context {S : Type} (mongo : MongoIO S).
(** [Config.get_instance().PLATFORM_COLLECTION_NAME] *)
Context (PLATFORM_COLLECTION_NAME : string).

Definition mongo_create_document (collection : string)
    (data : gmap string value) : M S string :=
  store_op (CreateDocument collection data)
           (create_document mongo collection data).

Definition mongo_get_document (collection document_id : string)
  : M S (option (gmap string value)) :=
  store_op (GetDocument collection document_id)
           (get_document mongo collection document_id).

Definition mongo_update_document (collection document_id : string)
    (set_data : gmap string value) : M S (option (gmap string value)) :=
  store_op (UpdateDocument collection document_id set_data)
           (update_document mongo collection document_id set_data).

Definition mongo_get_collection (collection : string) : M S Collection :=
  store_op (GetCollection collection) (get_collection mongo collection).

(** The body is [pass]. *)
Definition _check_permission (token : value) (operation : string)
  : M S unit :=
  ret tt.

(** [for field in fields: if field in data: raise HTTPForbidden(...)] *)
Fixpoint reject_fields (fields : list string) (data : gmap string value)
  : M S unit :=
  match fields with
  | [] => ret tt
  | field :: rest =>
      if bool_decide (is_Some (data !! field))
      then raise (HTTPForbidden ("Cannot update " +:+ field +:+ " field"))
      else reject_fields rest data
  end.

Definition _validate_update_data (data : gmap string value) : M S unit :=
  reject_fields restricted_fields data.

(** The document [create_platform] hands to the store: [_id] deleted,
    [created] and [saved] set. The source makes these changes in place, on
    the dictionary of the caller. *)
Definition stamped (data : gmap string value) (breadcrumb : value)
  : gmap string value :=
  let data :=
    if bool_decide (is_Some (data !! "_id")) then delete "_id" data
    else data in
  let data := <["created" := breadcrumb]> data in
  <["saved" := breadcrumb]> data.

Definition create_platform (data : gmap string value)
    (token breadcrumb : value) : M S string :=
  try_except
    (_check_permission token "create" ;;;
     let data := stamped data breadcrumb in
     platform_id <~ mongo_create_document PLATFORM_COLLECTION_NAME data ;;
     user_id <~ py_get token "user_id" ;;
     logger_info [VStr "Created platform "; VStr platform_id;
                  VStr " for user "; user_id] ;;;
     ret platform_id)
    (λ e,
      match e with
      | HTTPForbidden _ => raise e
      | _ =>
          let error_msg := exn_str e in
          logger_error [VStr "Error creating platform: "; VStr error_msg] ;;;
          raise (HTTPInternalServerError
                   ("Failed to create platform: " +:+ error_msg))
      end).

Definition get_platforms (token breadcrumb : value)
    (name after_id : option string) (limit : option Z)
    (sort_by order : option string) : M S page :=
  let limit := default 10 limit in
  let sort_by := default "name" sort_by in
  let order := default "asc" order in
  try_except
    (_check_permission token "read" ;;;
     collection <~ mongo_get_collection PLATFORM_COLLECTION_NAME ;;
     result <~ execute_infinite_scroll_query mongo collection name after_id
                 limit sort_by order ALLOWED_SORT_FIELDS ;;
     user_id <~ py_get token "user_id" ;;
     logger_info [VStr "Retrieved ";
                  VInt (Z.of_nat (length (items result)));
                  VStr " platforms (has_more="; VBool (has_more result);
                  VStr ") for user "; user_id] ;;;
     ret result)
    (λ e,
      match e with
      | HTTPBadRequest _ => raise e
      | _ =>
          logger_error [VStr "Error retrieving platforms: ";
                        VStr (exn_str e)] ;;;
          raise (HTTPInternalServerError "Failed to retrieve platforms")
      end).

Definition get_platform (platform_id : string) (token breadcrumb : value)
  : M S (gmap string value) :=
  try_except
    (_check_permission token "read" ;;;
     platform <~ mongo_get_document PLATFORM_COLLECTION_NAME platform_id ;;
     match platform with
     | None =>
         raise (HTTPNotFound ("Platform " +:+ platform_id +:+ " not found"))
     | Some platform =>
         user_id <~ py_get token "user_id" ;;
         logger_info [VStr "Retrieved platform "; VStr platform_id;
                      VStr " for user "; user_id] ;;;
         ret platform
     end)
    (λ e,
      match e with
      | HTTPNotFound _ => raise e
      | _ =>
          logger_error [VStr "Error retrieving platform ";
                        VStr platform_id; VStr ": "; VStr (exn_str e)] ;;;
          raise (HTTPInternalServerError
                   ("Failed to retrieve platform " +:+ platform_id))
      end).

(** [{k: v for k, v in data.items() if k not in restricted_fields}] with
    [saved] set afterwards *)
Definition set_data_of (data : gmap string value) (breadcrumb : value)
  : gmap string value :=
  <["saved" := breadcrumb]>
    (filter (λ kv, kv.1 ∉ restricted_fields) data).

Definition update_platform (platform_id : string)
    (data : gmap string value) (token breadcrumb : value)
  : M S (gmap string value) :=
  try_except
    (_check_permission token "update" ;;;
     _validate_update_data data ;;;
     let set_data := set_data_of data breadcrumb in
     updated <~ mongo_update_document PLATFORM_COLLECTION_NAME
                  platform_id set_data ;;
     match updated with
     | None =>
         raise (HTTPNotFound ("Platform " +:+ platform_id +:+ " not found"))
     | Some updated =>
         user_id <~ py_get token "user_id" ;;
         logger_info [VStr "Updated platform "; VStr platform_id;
                      VStr " for user "; user_id] ;;;
         ret updated
     end)
    (λ e,
      match e with
      | HTTPForbidden _ | HTTPNotFound _ => raise e
      | _ =>
          logger_error [VStr "Error updating platform ";
                        VStr platform_id; VStr ": "; VStr (exn_str e)] ;;;
          raise (HTTPInternalServerError
                   ("Failed to update platform " +:+ platform_id))
      end).
End Service.
End PlatformService.

(** ** A reference document store *)

(** [split_on c s]: the pieces of [s] between occurrences of [c]. *)
Fixpoint split_on (c : ascii) (s : string) : list string :=
  match s with
  | EmptyString => [""]
  | String a s' =>
      if Ascii.eqb a c then "" :: split_on c s'
      else match split_on c s' with
           | [] => [String a ""]
           | piece :: rest => String a piece :: rest
           end
  end.

(** The value at a dotted path, [VNone] where the path leaves the
    document. *)
Fixpoint get_path (path : list string) (v : value) : value :=
  match path with
  | [] => v
  | k :: rest =>
      match v with
      | VDict d =>
          match d !! k with
          | Some v' => get_path rest v'
          | None => VNone
          end
      | _ => VNone
      end
  end.

Definition sort_key (sort_by : string) (d : document) : value :=
  get_path (split_on "." sort_by) (VDict (doc_fields d)).

(** A document as the store returns it, the identifier under [_id]. *)
Definition doc_to_dict (d : document) : gmap string value :=
  <["_id" := VStr (oid_str (doc_id d))]> (doc_fields d).

Record mem_state : Type := MemState {
  collections : gmap string (list document);
  next_oid : N
}.

(** Modelled from the spec: the document store, an external collaborator of
    which the repository holds only the calls. Documents are kept in
    insertion order and identifiers are issued in increasing order; a query
    keeps the documents that pass the name filter and whose identifier is
    strictly after the cursor, sorts them by the requested field in the
    requested direction with the identifier ascending as tie-break, and
    returns the first [n]. The order on field values and the name match are
    the store's and are left as parameters. *)
Section MemStore.
Context (bson_compare : value → value → comparison).
Context (name_matches : string → gmap string value → bool).

(** Modelled from the spec: the comparison of two sort keys in the
    requested direction. *)
Definition dir_compare (order : direction) (a b : value) : comparison :=
  match order with
  | Asc => bson_compare a b
  | Desc => bson_compare b a
  end.

(** Modelled from the spec: [a] is not after [b] in the sort of a query,
    by the requested field and then by identifier ascending. *)
Definition doc_before (sort_by : string) (order : direction)
    (a b : document) : bool :=
  match dir_compare order (sort_key sort_by a) (sort_key sort_by b) with
  | Lt => true
  | Eq => (doc_id a <=? doc_id b)%N
  | Gt => false
  end.

(** Modelled from the spec: the name filter of a query. *)
Definition name_test (name : option string) (d : document) : bool :=
  match name with
  | None => true
  | Some n => name_matches n (doc_fields d)
  end.

(** Modelled from the spec: the cursor predicate, identifiers strictly
    after the cursor. *)
Definition after_test (cursor : option N) (d : document) : bool :=
  match cursor with
  | None => true
  | Some c => (c <? doc_id d)%N
  end.

Definition query_test (q : query) (d : document) : bool :=
  name_test (q_name q) d && after_test (q_after q) d.

(** [doc_before] as a relation, for the sort. *)
Definition sorts_before (sort_by : string) (order : direction)
  : relation document :=
  λ a b, doc_before sort_by order a b = true.

#[global] Instance sorts_before_dec sort_by order a b :
  Decision (sorts_before sort_by order a b).
Proof. unfold sorts_before. apply _. Defined.

(** Modelled from the spec: [find(query).sort(...).limit(n)] on the
    documents of a collection. *)
Definition run_query (docs : list document) (q : query) (sort_by : string)
    (order : direction) (n : Z) : list document :=
  take (Z.to_nat n)
    (merge_sort (sorts_before sort_by order)
       (filter (λ d, query_test q d = true) docs)).

Definition docs_of (st : mem_state) (collection : string) : list document :=
  default [] (collections st !! collection).

(** Modelled from the spec: [createDocument], the next identifier is
    assigned and returned as text; an [_id] in [data] plays no part. *)
Definition mem_create (collection : string) (data : gmap string value)
    (st : mem_state) : result string * mem_state :=
  let oid := next_oid st in
  (Ok (oid_str oid),
   MemState (<[collection := (docs_of st collection ++ [Document oid data])%list]>
               (collections st))
            (oid + 1)%N).

Definition lookup_doc (docs : list document) (oid : N) : option document :=
  list_find (λ d, doc_id d = oid) docs ≫= λ p, Some p.2.

Definition invalid_id (s : string) : exn :=
  PyException "InvalidId" ("'" +:+ s +:+ "' is not a valid ObjectId").

(** Modelled from the spec: [getDocument(id)], [None] when no document
    has the identifier. *)
Definition mem_get (collection document_id : string) (st : mem_state)
  : result (option (gmap string value)) * mem_state :=
  match parse_object_id document_id with
  | None => (Raise (invalid_id document_id), st)
  | Some oid =>
      (Ok (doc_to_dict <$> lookup_doc (docs_of st collection) oid), st)
  end.

(** [$set]: the given fields replace or extend those of the document. *)
Definition apply_set (set_data : gmap string value) (d : document)
  : document :=
  Document (doc_id d) (set_data ∪ doc_fields d).

(** Modelled from the spec: [updateDocument(id, setFields)], the document
    after the update, or [None] when no document has the identifier. *)
Definition mem_update (collection document_id : string)
    (set_data : gmap string value) (st : mem_state)
  : result (option (gmap string value)) * mem_state :=
  match parse_object_id document_id with
  | None => (Raise (invalid_id document_id), st)
  | Some oid =>
      let docs := docs_of st collection in
      match lookup_doc docs oid with
      | None => (Ok None, st)
      | Some d =>
          (Ok (Some (doc_to_dict (apply_set set_data d))),
           MemState
             (<[collection :=
                  (λ d', if bool_decide (doc_id d' = oid)
                         then apply_set set_data d' else d') <$> docs]>
                (collections st))
             (next_oid st))
      end
  end.

(** Modelled from the spec: the four operations of the gateway and the
    query of a collection handle. *)
Definition mem_store : MongoIO mem_state := {|
  create_document := mem_create;
  get_document := mem_get;
  update_document := mem_update;
  get_collection := λ name st, (Ok {| coll_name := name |}, st);
  find := λ c q sort_by order n st,
            (Ok (run_query (docs_of st (coll_name c)) q sort_by order n), st)
|}.
End MemStore.

(** A store that is down: every call raises [e]. *)
Definition failing_store (e : exn) : MongoIO unit := {|
  create_document := λ _ _ st, (Raise e, st);
  get_document := λ _ _ st, (Raise e, st);
  update_document := λ _ _ _ st, (Raise e, st);
  get_collection := λ _ st, (Raise e, st);
  find := λ _ _ _ _ _ st, (Raise e, st)
|}.

(** A store whose collection handle is there but whose queries and writes
    raise [e]. *)
Definition faulty_store (e : exn) : MongoIO unit := {|
  create_document := λ _ _ st, (Raise e, st);
  get_document := λ _ _ st, (Raise e, st);
  update_document := λ _ _ _ st, (Raise e, st);
  get_collection := λ name st, (Ok {| coll_name := name |}, st);
  find := λ _ _ _ _ _ st, (Raise e, st)
|}.

(** A store that creates under the identifier [new_id] and then finds
    nothing. *)
Definition faulty_reader (new_id : string) : MongoIO unit := {|
  create_document := λ _ _ st, (Ok new_id, st);
  get_document := λ _ _ st, (Ok None, st);
  update_document := λ _ _ _ st, (Ok None, st);
  get_collection := λ name st, (Ok {| coll_name := name |}, st);
  find := λ _ _ _ _ _ st, (Ok [], st)
|}.

(** An order on values for the examples: strings by their characters,
    everything else before any string. *)
Definition string_order (a b : value) : comparison :=
  match a, b with
  | VStr s, VStr t => String.compare s t
  | VStr _, _ => Gt
  | _, VStr _ => Lt
  | _, _ => Eq
  end.

(** A name filter for the examples: the [name] field is the given text. *)
Definition name_is (n : string) (fields : gmap string value) : bool :=
  match fields !! "name" with
  | Some (VStr s) => String.eqb s n
  | _ => false
  end.

(** ** Requests and the scroll of a client *)

(** The exception classes the handlers of the service name. *)
Definition is_bad_request (e : exn) : bool :=
  match e with HTTPBadRequest _ => true | _ => false end.

Definition is_forbidden (e : exn) : bool :=
  match e with HTTPForbidden _ => true | _ => false end.

Definition is_not_found (e : exn) : bool :=
  match e with HTTPNotFound _ => true | _ => false end.

(** One call of a service operation. *)
Inductive request : Type :=
  | Create (data : gmap string value) (token breadcrumb : value)
  | List (token breadcrumb : value) (name after_id : option string)
         (limit : option Z) (sort_by order : option string)
  | Read (platform_id : string) (token breadcrumb : value)
  | Update (platform_id : string) (data : gmap string value)
           (token breadcrumb : value).

Inductive response : Type :=
  | Created (platform_id : string)
  | Listed (p : page)
  | Found (platform : gmap string value).

Section Client.
Context {S : Type} (mongo : MongoIO S).
Context (PLATFORM_COLLECTION_NAME : string).

Definition serve (r : request) : M S response :=
  match r with
  | Create data token breadcrumb =>
      platform_id <~ PlatformService.create_platform mongo
                       PLATFORM_COLLECTION_NAME data token breadcrumb ;;
      ret (Created platform_id)
  | List token breadcrumb name after_id limit sort_by order =>
      p <~ PlatformService.get_platforms mongo PLATFORM_COLLECTION_NAME
             token breadcrumb name after_id limit sort_by order ;;
      ret (Listed p)
  | Read platform_id token breadcrumb =>
      platform <~ PlatformService.get_platform mongo
                    PLATFORM_COLLECTION_NAME platform_id token breadcrumb ;;
      ret (Found platform)
  | Update platform_id data token breadcrumb =>
      platform <~ PlatformService.update_platform mongo
                    PLATFORM_COLLECTION_NAME platform_id data token
                    breadcrumb ;;
      ret (Found platform)
  end.

(** The scroll of a client: list with the cursor of the previous page until
    [has_more] is false, collecting the items. At most [fuel] pages are
    requested; [None] is a scroll that wanted more. *)
Fixpoint scroll (fuel : nat) (token breadcrumb : value)
    (name : option string) (limit : option Z) (sort_by order : option string)
    (after_id : option string) : M S (option (list document)) :=
  match fuel with
  | O => ret None
  | Datatypes.S fuel' =>
      p <~ PlatformService.get_platforms mongo PLATFORM_COLLECTION_NAME
             token breadcrumb name after_id limit sort_by order ;;
      if has_more p then
        rest <~ scroll fuel' token breadcrumb name limit sort_by order
                  (next_cursor p) ;;
        ret ((λ l, items p ++ l)%list <$> rest)
      else ret (Some (items p))
  end.
End Client.

(** ** When the scroll is exhaustive *)

(** Identifier order on documents. *)
Definition id_lt : relation document := λ a b, (doc_id a < doc_id b)%N.

(** The requested sort follows the identifiers on [docs]: a document with
    a smaller identifier is never sorted after one with a larger. *)
Definition follows_ids (bson_compare : value → value → comparison)
    (sort_by : string) (order : direction) (docs : list document) : bool :=
  forallb
    (λ a, forallb
            (λ b, implb (doc_id a <? doc_id b)%N
                    (doc_before bson_compare sort_by order a b))
            docs)
    docs.

(** ** Sample data *)

Definition sample_claims : gmap string value :=
  {[ "user_id" := VStr "test_user" ]}.

Definition sample_token : value := VDict sample_claims.

(** The payload of [test_create_user_removes_id]. *)
Definition payload_with_id : gmap string value :=
  {[ "_id" := VStr "should-be-removed"; "name" := VStr "test" ]}.

(** A payload of [test_update_user_prevent_restricted_fields]. *)
Definition payload_with_saved : gmap string value :=
  {[ "saved" := VDict {[ "at_time" := VStr "2024-01-01T00:00:00Z" ]};
     "name" := VStr "Updated" ]}.

(** The payload of [test_update_user_uses_breadcrumb_directly]. *)
Definition payload_rename : gmap string value :=
  {[ "name" := VStr "updated" ]}.

Definition store_down : exn :=
  PyException "ServerSelectionTimeoutError" "connection refused".

Definition sample_breadcrumb : value :=
  VDict {[ "at_time" := VStr "2024-01-01T00:00:00Z";
           "by_user" := VStr "test_user" ]}.

Definition later_breadcrumb : value :=
  VDict {[ "at_time" := VStr "2024-02-02T00:00:00Z";
           "by_user" := VStr "test_user" ]}.

Definition ref_store : MongoIO mem_state := mem_store string_order name_is.

Definition named (oid : N) (name : string) : document :=
  Document oid {[ "name" := VStr name ]}.

(** Three platforms whose names are not in the order of their
    identifiers. *)
Definition shuffled : mem_state :=
  MemState {[ "Platform" := [named 1 "b"; named 2 "a"; named 3 "c"] ]} 4.

(** Three platforms whose names follow their identifiers. *)
Definition aligned : mem_state :=
  MemState {[ "Platform" := [named 1 "a"; named 2 "b"; named 3 "c"] ]} 4.

Definition empty_store : mem_state := MemState ∅ 1.

Definition fresh_world {S : Type} (st : S) : world S := World st [] [].

(** ** The routes *)

(** What a route reads from the Flask request: the outcome of
    [create_flask_token()] (the token, or the exception it raises), the
    dictionary [create_flask_breadcrumb(token)] builds, what
    [request.get_json()] returns and the query string. [json] is the JSON
    object of the body, or [None] for a body that is the JSON [null]. A
    request for which [get_json()] raises (no JSON body, a body that is
    not JSON) and a body that is another JSON value (a list, a string, a
    number) are not requests of this type. *)
Record flask_request : Type := FlaskRequest {
  bearer : result (gmap string value);
  crumb : gmap string value;
  json : option (gmap string value);
  args : gmap string string
}.

(** [d[key]] on a dictionary: [KeyError] for a missing key. *)
Definition py_getitem {S} (d : gmap string value) (key : string)
  : M S value :=
  match d !! key with
  | Some v => ret v
  | None => raise (PyException "KeyError" ("'" +:+ key +:+ "'"))
  end.

(** A value already computed, or the exception raised in its place. *)
Definition lift {S A} (r : result A) : M S A := λ w, (r, w).

(** [request.args.get(key, default, type=int)]: the default when the key is
    missing and when the conversion raises. *)
Definition args_get_int (py_int : string → option Z)
    (args : gmap string string) (key : string) (default : Z) : Z :=
  match args !! key with
  | None => default
  | Some rv =>
      match py_int rv with
      | Some n => n
      | None => default
      end
  end.

(** The bodies of the four view functions of [create_platform_routes], as
    they run inside [handle_route_exceptions]: an exception raised here is
    what that decorator receives. The answer is the dictionary handed to
    [jsonify] and the status. *)
Module PlatformRoutes.
Section Routes.
Context {S : Type} (mongo : MongoIO S).
Context (PLATFORM_COLLECTION_NAME : string).
(** [int(s)], [None] where it raises [ValueError] *)
Context (py_int : string → option Z).

Definition success_line (route : string) (breadcrumb : gmap string value)
  : M S unit :=
  at_time <~ py_getitem breadcrumb "at_time" ;;
  correlation_id <~ py_getitem breadcrumb "correlation_id" ;;
  logger_info [VStr route; VStr " Success "; at_time; VStr ", ";
               correlation_id].

Definition create_platform (request : flask_request)
  : M S (gmap string value * Z) :=
  token <~ lift (bearer request) ;;
  let breadcrumb := crumb request in
  let data := default ∅ (json request) in
  platform_id <~ PlatformService.create_platform mongo
                   PLATFORM_COLLECTION_NAME data (VDict token)
                   (VDict breadcrumb) ;;
  platform <~ PlatformService.get_platform mongo PLATFORM_COLLECTION_NAME
                platform_id (VDict token) (VDict breadcrumb) ;;
  success_line "create_platform" breadcrumb ;;;
  ret (platform, 201).

Definition get_platforms (request : flask_request) : M S (page * Z) :=
  token <~ lift (bearer request) ;;
  let breadcrumb := crumb request in
  let name := args request !! "name" in
  let after_id := args request !! "after_id" in
  let limit := args_get_int py_int (args request) "limit" 10 in
  let sort_by := default "name" (args request !! "sort_by") in
  let order := default "asc" (args request !! "order") in
  result <~ PlatformService.get_platforms mongo PLATFORM_COLLECTION_NAME
              (VDict token) (VDict breadcrumb) name after_id (Some limit)
              (Some sort_by) (Some order) ;;
  success_line "get_platforms" breadcrumb ;;;
  ret (result, 200).

Definition get_platform (request : flask_request) (platform_id : string)
  : M S (gmap string value * Z) :=
  token <~ lift (bearer request) ;;
  let breadcrumb := crumb request in
  platform <~ PlatformService.get_platform mongo PLATFORM_COLLECTION_NAME
                platform_id (VDict token) (VDict breadcrumb) ;;
  success_line "get_platform" breadcrumb ;;;
  ret (platform, 200).

Definition update_platform (request : flask_request) (platform_id : string)
  : M S (gmap string value * Z) :=
  token <~ lift (bearer request) ;;
  let breadcrumb := crumb request in
  let data := default ∅ (json request) in
  platform <~ PlatformService.update_platform mongo PLATFORM_COLLECTION_NAME
                platform_id data (VDict token) (VDict breadcrumb) ;;
  success_line "update_platform" breadcrumb ;;;
  ret (platform, 200).
End Routes.
End PlatformRoutes.

(** The request with one more query parameter. *)
Definition with_arg (key v : string) (request : flask_request)
  : flask_request :=
  FlaskRequest (bearer request) (crumb request) (json request)
    (<[key := v]> (args request)).

(** The calls that only read. *)
Definition is_read_call (c : store_call) : bool :=
  match c with
  | GetDocument _ _ | GetCollection _ | Find _ _ _ _ _ => true
  | CreateDocument _ _ | UpdateDocument _ _ _ => false
  end.

(** A reading of [int(s)] for the examples: unsigned decimal digits. *)
Fixpoint decimal (s : string) (acc : Z) : option Z :=
  match s with
  | EmptyString => Some acc
  | String c s' =>
      let n := Z.of_N (N_of_ascii c) in
      if (48 <=? n) && (n <=? 57) then decimal s' (acc * 10 + (n - 48))
      else None
  end.

Definition digits_only (s : string) : option Z :=
  match s with
  | EmptyString => None
  | _ => decimal s 0
  end.

Definition route_crumb : gmap string value :=
  {[ "at_time" := VStr "sometime"; "correlation_id" := VStr "correlation_ID" ]}.

Definition unauthorized : exn := PyException "HTTPUnauthorized" "Invalid token".

Definition post_request : flask_request :=
  FlaskRequest (Ok sample_claims) route_crumb (Some payload_with_id) ∅.

(** A request whose body is [{}]. *)
Definition empty_patch : flask_request :=
  FlaskRequest (Ok sample_claims) route_crumb (Some ∅) ∅.

Definition refused_request : flask_request :=
  FlaskRequest (Raise unauthorized) route_crumb None ∅.

Definition odd_limit_request : flask_request :=
  FlaskRequest (Ok sample_claims) route_crumb None {[ "limit" := "abc" ]}.

(** * Properties *)

Import PlatformService.

Ltac unfold_service :=
  unfold create_platform, get_platforms, get_platform, update_platform,
    _validate_update_data, _check_permission,
    mongo_create_document, mongo_get_document, mongo_update_document,
    mongo_get_collection, collection_find.

Ltac unfold_monad :=
  unfold bind, try_except, ret, raise, store_op, logger_info, logger_error,
    py_get.

(** ** Restricted fields and audit stamps *)

Section ServiceFacts.
Context {S : Type} (mongo : MongoIO S) (coll : string).

(** The loop over the restricted fields stops at the first one the payload
    has. *)
Lemma reject_fields_spec (fields : list string) (data : gmap string value)
    (w : world S) :
  reject_fields (S:=S) fields data w =
    match list_find (λ f, is_Some (data !! f)) fields with
    | Some (_, f) =>
        (Raise (HTTPForbidden ("Cannot update " +:+ f +:+ " field")), w)
    | None => (Ok tt, w)
    end.
Proof.
  induction fields as [|f fields IH]; [done|].
  cbn [reject_fields list_find].
  case_bool_decide as Hf.
  - by rewrite decide_True.
  - rewrite decide_False by done. rewrite IH.
    by destruct (list_find _ fields) as [[i g]|].
Qed.

Lemma reject_fields_clean (data : gmap string value) (w : world S) :
  Forall (λ f, data !! f = None) restricted_fields →
  reject_fields (S:=S) restricted_fields data w = (Ok tt, w).
Proof.
  intros Hclean. rewrite reject_fields_spec.
  destruct (list_find _ restricted_fields) as [[i f]|] eqn:Hfind; [|done].
  apply list_find_Some in Hfind as (Hi & [v Hv] & _).
  apply list_elem_of_lookup_2 in Hi.
  rewrite Forall_forall in Hclean. rewrite (Hclean f Hi) in Hv. done.
Qed.

Lemma stamped_lookup (data : gmap string value) (bc : value) :
  stamped data bc !! "_id" = None ∧
  stamped data bc !! "created" = Some bc ∧
  stamped data bc !! "saved" = Some bc ∧
  ∀ k, k ∉ restricted_fields → stamped data bc !! k = data !! k.
Proof.
  unfold stamped, restricted_fields.
  repeat split.
  - rewrite !lookup_insert_ne by done.
    case_bool_decide as H; [apply lookup_delete_eq|].
    by apply eq_None_not_Some.
  - rewrite lookup_insert_ne by done. apply lookup_insert_eq.
  - apply lookup_insert_eq.
  - intros k Hk.
    rewrite !lookup_insert_ne by set_solver.
    case_bool_decide; [|done]. apply lookup_delete_ne. set_solver.
Qed.

Lemma set_data_of_clean (data : gmap string value) (bc : value) :
  Forall (λ f, data !! f = None) restricted_fields →
  set_data_of data bc = <["saved" := bc]> data.
Proof.
  intros H. unfold set_data_of. f_equal.
  apply map_filter_id. intros k v Hk. simpl. intros Hin.
  rewrite Forall_forall in H. rewrite (H k Hin) in Hk. done.
Qed.

(** C6. For every payload, [create_platform] hands the store the payload
    without [_id] and with [created] and [saved] both equal to the caller's
    breadcrumb, every other field as supplied, and returns the identifier
    the store assigned; a supplied [_id] raises nothing. *)
Theorem create_platform_stamps (data tok : gmap string value) (bc : value)
    (w : world S) (new_id : string) (st' : S) :
  create_document mongo coll (stamped data bc) (store w) = (Ok new_id, st') →
  create_platform mongo coll data (VDict tok) bc w =
    (Ok new_id,
     World st'
       (calls w ++ [CreateDocument coll (stamped data bc)])
       (logs w ++ [(INFO, [VStr "Created platform "; VStr new_id;
                           VStr " for user ";
                           default VNone (tok !! "user_id")])]))
  ∧ stamped data bc !! "_id" = None
  ∧ stamped data bc !! "created" = Some bc
  ∧ stamped data bc !! "saved" = Some bc
  ∧ ∀ k, k ∉ restricted_fields → stamped data bc !! k = data !! k.
Proof.
  intros Hstore. split; [|apply stamped_lookup].
  unfold_service. unfold_monad. simpl. rewrite Hstore. reflexivity.
Qed.

(** C7. An update whose payload has one of [_id], [created], [saved] raises
    [HTTPForbidden] naming the first of them the payload has, and leaves
    the world as it was: no call on the store, no change of its state. *)
Theorem update_rejects_restricted (platform_id : string)
    (data : gmap string value) (token bc : value) (w : world S)
    (field : string) :
  field ∈ restricted_fields → is_Some (data !! field) →
  ∃ f,
    f ∈ restricted_fields ∧ is_Some (data !! f)
    ∧ ((∀ g, g ∈ restricted_fields → is_Some (data !! g) → g = field) →
       f = field)
    ∧ update_platform mongo coll platform_id data token bc w =
        (Raise (HTTPForbidden ("Cannot update " +:+ f +:+ " field")), w).
Proof.
  intros Hin Hsome.
  destruct (list_find (λ f, is_Some (data !! f)) restricted_fields)
    as [[i f]|] eqn:Hfind.
  - pose proof Hfind as (Hi & Hf & _)%list_find_Some.
    apply list_elem_of_lookup_2 in Hi.
    exists f. repeat split; [done|done|auto|].
    unfold_service. unfold bind, try_except, ret.
    rewrite reject_fields_spec, Hfind. reflexivity.
  - apply list_find_None in Hfind.
    rewrite Forall_forall in Hfind. by destruct (Hfind field Hin).
Qed.

(** C8. An update whose payload has no restricted field sends the store the
    payload with [saved] set to the breadcrumb of this call; it returns the
    document the store answers with, and raises [HTTPNotFound] exactly when
    the store resolves no document for the identifier. *)
Theorem update_platform_outcome (platform_id : string)
    (data tok : gmap string value) (bc : value) (w : world S)
    (r : result (option (gmap string value))) (st' : S) :
  Forall (λ f, data !! f = None) restricted_fields →
  update_document mongo coll platform_id (<["saved" := bc]> data) (store w)
    = (r, st') →
  let sent := UpdateDocument coll platform_id (<["saved" := bc]> data) in
  let out := update_platform mongo coll platform_id data (VDict tok) bc w in
  (<["saved" := bc]> data !! "saved" = Some bc
   ∧ ∀ k, k ≠ "saved" → <["saved" := bc]> data !! k = data !! k)
  ∧ (∀ d, r = Ok (Some d) →
       out = (Ok d,
              World st' (calls w ++ [sent])
                (logs w ++ [(INFO, [VStr "Updated platform ";
                                    VStr platform_id; VStr " for user ";
                                    default VNone (tok !! "user_id")])])))
  ∧ (r = Ok None →
       out = (Raise (HTTPNotFound
                       ("Platform " +:+ platform_id +:+ " not found")),
              World st' (calls w ++ [sent]) (logs w)))
  ∧ (∀ m, out.1 = Raise (HTTPNotFound m) ↔
          (r = Ok None ∧ m = "Platform " +:+ platform_id +:+ " not found")
          ∨ r = Raise (HTTPNotFound m)).
Proof.
  intros Hclean Hstore sent out.
  assert (Hout : out =
    match r with
    | Ok (Some d) =>
        (Ok d,
         World st' (calls w ++ [sent])
           (logs w ++ [(INFO, [VStr "Updated platform "; VStr platform_id;
                               VStr " for user ";
                               default VNone (tok !! "user_id")])]))
    | Ok None =>
        (Raise (HTTPNotFound ("Platform " +:+ platform_id +:+ " not found")),
         World st' (calls w ++ [sent]) (logs w))
    | Raise e =>
        if is_forbidden e || is_not_found e
        then (Raise e, World st' (calls w ++ [sent]) (logs w))
        else (Raise (HTTPInternalServerError
                       ("Failed to update platform " +:+ platform_id)),
              World st' (calls w ++ [sent])
                (logs w ++ [(ERROR, [VStr "Error updating platform ";
                                     VStr platform_id; VStr ": ";
                                     VStr (exn_str e)])]))
    end).
  { subst out sent. unfold_service. unfold bind at 1 2, try_except, ret.
    rewrite reject_fields_clean by done.
    rewrite set_data_of_clean by done.
    unfold_monad. simpl. rewrite Hstore.
    destruct r as [[d|]|e]; [done|done|by destruct e]. }
  split; [|split; [|split]].
  - split; [apply lookup_insert_eq|].
    intros k Hk. by apply lookup_insert_ne.
  - intros d ->. exact Hout.
  - intros ->. exact Hout.
  - intros m. rewrite Hout. destruct r as [[d|]|e]; simpl.
    + split; [done|]. by intros [[? _]|?].
    + split; [intros [= <-]; by left|].
      intros [[_ ->]|?]; done.
    + destruct e; simpl; (split; [intros [= <-]; by right|]);
        by intros [[? _]|[= ->]].
Qed.
End ServiceFacts.

(** ** Permission stub and error translation *)

Section Boundary.
Context {S : Type} (mongo : MongoIO S) (coll : string).

(** What [get_platforms] answers when the collection handle cannot be
    obtained. *)
Lemma get_platforms_no_handle (token bc : value)
    (name after_id : option string) (limit : option Z)
    (sort_by order : option string) (w : world S) (e : exn) (st' : S) :
  get_collection mongo coll (store w) = (Raise e, st') →
  get_platforms mongo coll token bc name after_id limit sort_by order w =
    if is_bad_request e
    then (Raise e, World st' (calls w ++ [GetCollection coll]) (logs w))
    else (Raise (HTTPInternalServerError "Failed to retrieve platforms"),
          World st' (calls w ++ [GetCollection coll])
            (logs w ++ [(ERROR, [VStr "Error retrieving platforms: ";
                                 VStr (exn_str e)])])).
Proof.
  intros Hstore. unfold_service. unfold_monad. simpl. rewrite Hstore.
  by destruct e.
Qed.

(** The engine on parameters that pass its checks: one query for
    [limit + 1] rows. *)
Lemma engine_valid (c : Collection) (name after_id : option string)
    (limit : Z) (sort_by order : string) (allowed : list string)
    (dir : direction) (cursor : option N) (w : world S) :
  1 ≤ limit ≤ 100 → sort_by ∈ allowed →
  parse_order order = Some dir → parse_cursor after_id = Some cursor →
  execute_infinite_scroll_query mongo c name after_id limit sort_by order
    allowed w =
  (rows <~ collection_find mongo c (Query name cursor) sort_by dir
             (limit + 1) ;;
   ret (page_of_rows limit rows)) w.
Proof.
  intros Hlimit Hsort Horder Hcursor. unfold execute_infinite_scroll_query.
  destruct (Z.ltb_spec limit 1); [lia|].
  destruct (Z.ltb_spec 100 limit); [lia|].
  rewrite bool_decide_eq_true_2 by done. simpl.
  by rewrite Horder, Hcursor.
Qed.

(** [get_platforms] once the handle is there and the parameters pass the
    checks, by what the query answers. *)
Lemma get_platforms_valid (token bc : value) (name after_id : option string)
    (limit : Z) (sort_by order : string) (dir : direction)
    (cursor : option N) (w : world S) (c : Collection) (st1 st2 : S)
    (r : result (list document)) :
  1 ≤ limit ≤ 100 → sort_by ∈ ALLOWED_SORT_FIELDS →
  parse_order order = Some dir → parse_cursor after_id = Some cursor →
  get_collection mongo coll (store w) = (Ok c, st1) →
  find mongo c (Query name cursor) sort_by dir (limit + 1) st1 = (r, st2) →
  let asked :=
    (calls w ++ [GetCollection coll] ++
       [Find c (Query name cursor) sort_by dir (limit + 1)])%list in
  get_platforms mongo coll token bc name after_id (Some limit) (Some sort_by)
    (Some order) w =
  match r with
  | Ok rows =>
      match token with
      | VDict tok =>
          (Ok (page_of_rows limit rows),
           World st2 asked
             (logs w ++ [(INFO,
                [VStr "Retrieved ";
                 VInt (Z.of_nat (length (items (page_of_rows limit rows))));
                 VStr " platforms (has_more=";
                 VBool (has_more (page_of_rows limit rows));
                 VStr ") for user "; default VNone (tok !! "user_id")])]))
      | _ =>
          (Raise (HTTPInternalServerError "Failed to retrieve platforms"),
           World st2 asked
             (logs w ++ [(ERROR,
                [VStr "Error retrieving platforms: ";
                 VStr (exn_str (no_get token))])]))
      end
  | Raise e =>
      if is_bad_request e then (Raise e, World st2 asked (logs w))
      else (Raise (HTTPInternalServerError "Failed to retrieve platforms"),
            World st2 asked
              (logs w ++ [(ERROR, [VStr "Error retrieving platforms: ";
                                   VStr (exn_str e)])]))
  end.
Proof.
  intros Hlimit Hsort Horder Hcursor Hhandle Hfind asked. subst asked.
  unfold get_platforms, _check_permission, mongo_get_collection.
  unfold bind at 1 2 3, try_except, ret, store_op at 1. simpl.
  rewrite Hhandle.
  rewrite (engine_valid _ _ _ _ _ _ _ dir cursor) by done.
  unfold collection_find. unfold_monad. simpl. rewrite Hfind.
  rewrite <- (assoc_L (++)).
  destruct r as [rows|e]; [|by destruct e].
  by destruct token.
Qed.
End Boundary.

Section Translation.
Context {S : Type} (mongo : MongoIO S) (coll : string).

(** C9, as the code has it. An exception of the store that the handler of
    the operation does not let through by class is raised again as
    [HTTPInternalServerError]: with a fixed text for list, read and update,
    and with the text of the cause appended for create. The cause is logged
    in each case. *)
Theorem store_faults_translated (e : exn) (token bc : value) (w : world S)
    (st' : S) :
  (∀ data,
     is_forbidden e = false →
     create_document mongo coll (stamped data bc) (store w) = (Raise e, st') →
     create_platform mongo coll data token bc w =
       (Raise (HTTPInternalServerError
                 ("Failed to create platform: " +:+ exn_str e)),
        World st' (calls w ++ [CreateDocument coll (stamped data bc)])
          (logs w ++ [(ERROR, [VStr "Error creating platform: ";
                               VStr (exn_str e)])])))
  ∧ (∀ name after_id limit sort_by order,
       is_bad_request e = false →
       get_collection mongo coll (store w) = (Raise e, st') →
       get_platforms mongo coll token bc name after_id limit sort_by order w
       = (Raise (HTTPInternalServerError "Failed to retrieve platforms"),
          World st' (calls w ++ [GetCollection coll])
            (logs w ++ [(ERROR, [VStr "Error retrieving platforms: ";
                                 VStr (exn_str e)])])))
  ∧ (∀ name after_id limit sort_by order dir cursor c st1,
       is_bad_request e = false →
       1 ≤ limit ≤ 100 → sort_by ∈ ALLOWED_SORT_FIELDS →
       parse_order order = Some dir → parse_cursor after_id = Some cursor →
       get_collection mongo coll (store w) = (Ok c, st1) →
       find mongo c (Query name cursor) sort_by dir (limit + 1) st1
         = (Raise e, st') →
       get_platforms mongo coll token bc name after_id (Some limit)
         (Some sort_by) (Some order) w
       = (Raise (HTTPInternalServerError "Failed to retrieve platforms"),
          World st'
            (calls w ++ [GetCollection coll] ++
               [Find c (Query name cursor) sort_by dir (limit + 1)])
            (logs w ++ [(ERROR, [VStr "Error retrieving platforms: ";
                                 VStr (exn_str e)])])))
  ∧ (∀ platform_id,
       is_not_found e = false →
       get_document mongo coll platform_id (store w) = (Raise e, st') →
       get_platform mongo coll platform_id token bc w
       = (Raise (HTTPInternalServerError
                   ("Failed to retrieve platform " +:+ platform_id)),
          World st' (calls w ++ [GetDocument coll platform_id])
            (logs w ++ [(ERROR, [VStr "Error retrieving platform ";
                                 VStr platform_id; VStr ": ";
                                 VStr (exn_str e)])])))
  ∧ (∀ platform_id data,
       is_forbidden e = false → is_not_found e = false →
       Forall (λ f, data !! f = None) restricted_fields →
       update_document mongo coll platform_id (<["saved" := bc]> data)
         (store w) = (Raise e, st') →
       update_platform mongo coll platform_id data token bc w
       = (Raise (HTTPInternalServerError
                   ("Failed to update platform " +:+ platform_id)),
          World st'
            (calls w ++
               [UpdateDocument coll platform_id (<["saved" := bc]> data)])
            (logs w ++ [(ERROR, [VStr "Error updating platform ";
                                 VStr platform_id; VStr ": ";
                                 VStr (exn_str e)])]))).
Proof.
  repeat split.
  - intros data He Hstore. unfold_service. unfold_monad. simpl.
    rewrite Hstore. by destruct e.
  - intros name after_id limit sort_by order He Hstore.
    rewrite (get_platforms_no_handle _ _ _ _ _ _ _ _ _ _ e st') by done.
    by rewrite He.
  - intros name after_id limit sort_by order dir cursor c st1 He
      Hlimit Hsort Horder Hcursor Hhandle Hfind.
    rewrite (get_platforms_valid _ _ _ _ _ _ _ _ _ dir cursor _ c st1 st'
               (Raise e)) by done.
    by rewrite He.
  - intros platform_id He Hstore. unfold_service. unfold_monad. simpl.
    rewrite Hstore. by destruct e.
  - intros platform_id data He1 He2 Hclean Hstore.
    unfold_service. unfold bind at 1 2, try_except, ret.
    rewrite reject_fields_clean by done.
    rewrite set_data_of_clean by done.
    unfold_monad. simpl. rewrite Hstore. by destruct e.
Qed.

(** The handler of [get_platforms] lets [HTTPBadRequest] through and turns
    the rest into [HTTPInternalServerError]. *)
Lemma get_platforms_raises (token bc : value) (name after_id : option string)
    (limit : option Z) (sort_by order : option string) (w w' : world S)
    (e : exn) :
  get_platforms mongo coll token bc name after_id limit sort_by order w
    = (Raise e, w') →
  is_bad_request e = true
  ∨ e = HTTPInternalServerError "Failed to retrieve platforms".
Proof.
  unfold get_platforms, try_except.
  match goal with
  | |- context [match ?body w with _ => _ end] =>
      destruct (body w) as [[p|e0] w0]
  end; [done|].
  destruct e0; unfold_monad; simpl; intros [= <- <-]; auto.
Qed.

Lemma get_platform_raises (platform_id : string) (token bc : value)
    (w w' : world S) (e : exn) :
  get_platform mongo coll platform_id token bc w = (Raise e, w') →
  is_not_found e = true
  ∨ e = HTTPInternalServerError
          ("Failed to retrieve platform " +:+ platform_id).
Proof.
  unfold get_platform, try_except.
  match goal with
  | |- context [match ?body w with _ => _ end] =>
      destruct (body w) as [[p|e0] w0]
  end; [done|].
  destruct e0; unfold_monad; simpl; intros [= <- <-]; auto.
Qed.

(** C10, as the code has it. [_check_permission] returns for every token
    and operation, and a service operation raises [HTTPForbidden] only in
    [update_platform] for a restricted field of the payload, or when the
    store itself raised that very [HTTPForbidden] in the write of a create
    or an update, which the handlers raise again. *)
Theorem permission_check_is_a_stub :
  (∀ (token : value) (operation : string) (w : world S),
     _check_permission token operation w = (Ok tt, w))
  ∧ (∀ (r : request) (w w' : world S) (m : string),
       serve mongo coll r w = (Raise (HTTPForbidden m), w') →
       (∃ platform_id data token bc f,
          r = Update platform_id data token bc
          ∧ f ∈ restricted_fields ∧ is_Some (data !! f)
          ∧ m = "Cannot update " +:+ f +:+ " field" ∧ w' = w)
       ∨ (∃ data token bc,
            r = Create data token bc
            ∧ (create_document mongo coll (stamped data bc) (store w)).1
              = Raise (HTTPForbidden m))
       ∨ (∃ platform_id data token bc,
            r = Update platform_id data token bc
            ∧ (update_document mongo coll platform_id (set_data_of data bc)
                 (store w)).1 = Raise (HTTPForbidden m))).
Proof.
  split; [done|].
  intros [data token bc|token bc name after_id limit sort_by order
          |platform_id token bc|platform_id data token bc] w w' m;
    unfold serve, bind at 1.
  - intros Hrun. right; left. exists data, token, bc. split; [done|].
    revert Hrun. unfold_service. unfold_monad. simpl.
    destruct (create_document _ _ _ _) as [[new_id|e] st']; simpl.
    + destruct token; simpl; intros [=].
    + destruct e; simpl; intros [=]; by subst.
  - destruct (get_platforms _ _ _ _ _ _ _ _ _ _) as [[p|e] w0] eqn:Hrun;
      [done|].
    intros [= -> <-]. by apply get_platforms_raises in Hrun as [[=]|[=]].
  - destruct (get_platform _ _ _ _ _ _) as [[p|e] w0] eqn:Hrun; [done|].
    intros [= -> <-]. by apply get_platform_raises in Hrun as [[=]|[=]].
  - unfold_service. unfold bind at 1 2 3, try_except, ret.
    rewrite reject_fields_spec.
    destruct (list_find _ restricted_fields) as [[i f]|] eqn:Hfind.
    + intros [= <- <-]. left.
      apply list_find_Some in Hfind as (Hi & Hf & _).
      apply list_elem_of_lookup_2 in Hi.
      by exists platform_id, data, token, bc, f.
    + intros Hrun. right; right. exists platform_id, data, token, bc.
      split; [done|]. revert Hrun. unfold_monad. simpl.
      destruct (update_document _ _ _ _ _) as [[[d|]|e] st']; simpl.
      * destruct token; simpl; intros [=].
      * intros [=].
      * destruct e; simpl; intros [=]; by subst.
Qed.
End Translation.

(** C10, as the claim has it, fails: an [HTTPForbidden] of the store in
    the write of a create leaves [create_platform] as it came, so the
    rejection of a restricted field in update is not the only one. *)
Lemma store_forbidden_passes_through :
  serve (faulty_store (HTTPForbidden "store says no")) "Platform"
    (Create payload_rename sample_token sample_breadcrumb) (fresh_world tt)
  = (Raise (HTTPForbidden "store says no"),
     World tt
       [CreateDocument "Platform" (stamped payload_rename sample_breadcrumb)]
       []).
Proof. reflexivity. Qed.

(** C9, as the claim has it, fails for create: the text of the error
    raised to the caller carries the text of the store's exception, so two
    causes give two messages. *)
Lemma create_exposes_cause :
  (create_platform (faulty_store (PyException "OperationFailure" "disk full"))
     "Platform" ∅ sample_token sample_breadcrumb (fresh_world tt)).1
  = Raise (HTTPInternalServerError "Failed to create platform: disk full")
  ∧ (create_platform
       (faulty_store (PyException "OperationFailure" "not primary"))
       "Platform" ∅ sample_token sample_breadcrumb (fresh_world tt)).1
    = Raise (HTTPInternalServerError "Failed to create platform: not primary").
Proof. split; reflexivity. Qed.

(** ** Validation of the list parameters *)

Section Validation.
Context {S : Type} (mongo : MongoIO S) (coll : string).

(** [get_platforms] when the engine raises [e] without a query. *)
Lemma get_platforms_rejected (token bc : value)
    (name after_id : option string) (limit : Z) (sort_by order : string)
    (w : world S) (c : Collection) (st1 : S) (m : string) :
  get_collection mongo coll (store w) = (Ok c, st1) →
  (∀ w1, execute_infinite_scroll_query mongo c name after_id limit sort_by
           order ALLOWED_SORT_FIELDS w1 = (Raise (HTTPBadRequest m), w1)) →
  get_platforms mongo coll token bc name after_id (Some limit) (Some sort_by)
    (Some order) w
  = (Raise (HTTPBadRequest m),
     World st1 (calls w ++ [GetCollection coll]) (logs w)).
Proof.
  intros Hhandle Hengine.
  unfold get_platforms, _check_permission, mongo_get_collection.
  unfold bind at 1 2 3, try_except, ret, store_op. simpl.
  rewrite Hhandle, Hengine. reflexivity.
Qed.

Lemma engine_limit (c : Collection) (name after_id : option string)
    (limit : Z) (sort_by order : string) (allowed : list string)
    (w : world S) :
  ¬ (1 ≤ limit ≤ 100) →
  execute_infinite_scroll_query mongo c name after_id limit sort_by order
    allowed w
  = (Raise (HTTPBadRequest (if limit <? 1 then "limit must be >= 1"
                            else "limit must be <= 100")), w).
Proof.
  intros Hlimit. unfold execute_infinite_scroll_query.
  destruct (Z.ltb_spec limit 1); [done|].
  destruct (Z.ltb_spec 100 limit); [done|lia].
Qed.

Lemma engine_sort_by (c : Collection) (name after_id : option string)
    (limit : Z) (sort_by order : string) (allowed : list string)
    (w : world S) :
  1 ≤ limit ≤ 100 → sort_by ∉ allowed →
  execute_infinite_scroll_query mongo c name after_id limit sort_by order
    allowed w
  = (Raise (HTTPBadRequest
              ("sort_by must be one of: " +:+ str_join ", " allowed)), w).
Proof.
  intros Hlimit Hsort. unfold execute_infinite_scroll_query.
  destruct (Z.ltb_spec limit 1); [lia|].
  destruct (Z.ltb_spec 100 limit); [lia|].
  by rewrite bool_decide_eq_false_2.
Qed.


(** C3, as the code has it. Once [get_collection] has answered, a limit
    outside [1, 100] raises [HTTPBadRequest] with the text of the bound it
    breaks; the only call on the store is that [get_collection], and the
    engine itself makes none. An absent limit is 10. *)
Theorem limit_out_of_range_rejected (token bc : value)
    (name after_id : option string) (limit : Z) (sort_by order : string)
    (w : world S) (c : Collection) (st1 : S) :
  ¬ (1 ≤ limit ≤ 100) →
  get_collection mongo coll (store w) = (Ok c, st1) →
  get_platforms mongo coll token bc name after_id (Some limit) (Some sort_by)
    (Some order) w
  = (Raise (HTTPBadRequest (if limit <? 1 then "limit must be >= 1"
                            else "limit must be <= 100")),
     World st1 (calls w ++ [GetCollection coll]) (logs w))
  ∧ (∀ allowed w1,
       execute_infinite_scroll_query mongo c name after_id limit sort_by
         order allowed w1
       = (Raise (HTTPBadRequest (if limit <? 1 then "limit must be >= 1"
                                 else "limit must be <= 100")), w1))
  ∧ get_platforms mongo coll token bc name after_id None (Some sort_by)
      (Some order) w
    = get_platforms mongo coll token bc name after_id (Some 10)
        (Some sort_by) (Some order) w.
Proof.
  intros Hlimit Hhandle. split; [|split; [|done]].
  - apply (get_platforms_rejected _ _ _ _ _ _ _ _ c); [done|].
    intros w1. by apply engine_limit.
  - intros allowed w1. by apply engine_limit.
Qed.

(** C4, as the code has it. Once [get_collection] has answered, a sort
    field outside the allow-list of Platform raises [HTTPBadRequest]
    whatever the limit, and with a limit in range the text lists the
    allowed fields. An absent sort field is [name]. *)
Theorem sort_by_outside_allow_list_rejected (token bc : value)
    (name after_id : option string) (limit : Z) (sort_by order : string)
    (w : world S) (c : Collection) (st1 : S) :
  sort_by ∉ ALLOWED_SORT_FIELDS →
  get_collection mongo coll (store w) = (Ok c, st1) →
  let out :=
    get_platforms mongo coll token bc name after_id (Some limit)
      (Some sort_by) (Some order) w in
  let listed :=
    "sort_by must be one of: name, description, status, created.at_time, saved.at_time" in
  (∃ m, out = (Raise (HTTPBadRequest m),
               World st1 (calls w ++ [GetCollection coll]) (logs w)))
  ∧ (1 ≤ limit ≤ 100 →
     out = (Raise (HTTPBadRequest listed),
            World st1 (calls w ++ [GetCollection coll]) (logs w)))
  ∧ (∀ f, f ∈ ALLOWED_SORT_FIELDS →
       ∃ before after, listed = before +:+ f +:+ after)
  ∧ get_platforms mongo coll token bc name after_id (Some limit) None
      (Some order) w
    = get_platforms mongo coll token bc name after_id (Some limit)
        (Some "name") (Some order) w.
Proof.
  intros Hsort Hhandle out listed.
  assert (Hin : 1 ≤ limit ≤ 100 →
    out = (Raise (HTTPBadRequest listed),
           World st1 (calls w ++ [GetCollection coll]) (logs w))).
  { intros Hlimit. apply (get_platforms_rejected _ _ _ _ _ _ _ _ c); [done|].
    intros w1. by rewrite engine_sort_by. }
  split; [|split; [done|split; [|done]]].
  - destruct (decide (1 ≤ limit ≤ 100)) as [Hlimit|Hlimit]; [eauto|].
    eexists. apply (get_platforms_rejected _ _ _ _ _ _ _ _ c); [done|].
    intros w1. by apply engine_limit.
  - intros f Hf. unfold ALLOWED_SORT_FIELDS in Hf.
    repeat (apply elem_of_cons in Hf as [->|Hf]);
      [ exists "sort_by must be one of: ",
          ", description, status, created.at_time, saved.at_time"
      | exists "sort_by must be one of: name, ",
          ", status, created.at_time, saved.at_time"
      | exists "sort_by must be one of: name, description, ",
          ", created.at_time, saved.at_time"
      | exists "sort_by must be one of: name, description, status, ",
          ", saved.at_time"
      | exists "sort_by must be one of: name, description, status, created.at_time, ",
          ""
      | by apply elem_of_nil in Hf ]; reflexivity.
Qed.

End Validation.

(** C3, as the claim has it, fails: the service asks the store for the
    collection before the limit is checked, so with a store that is down a
    limit of 0 ends in [HTTPInternalServerError], after a call on the
    store. *)
Lemma limit_checked_after_get_collection :
  get_platforms (failing_store (PyException "ServerSelectionTimeoutError"
                                  "connection refused"))
    "Platform" sample_token sample_breadcrumb None None (Some 0) None None
    (fresh_world tt)
  = (Raise (HTTPInternalServerError "Failed to retrieve platforms"),
     World tt [GetCollection "Platform"]
       [(ERROR, [VStr "Error retrieving platforms: ";
                 VStr "connection refused"])]).
Proof. reflexivity. Qed.

(** C4, as the claim has it, fails: a sort field outside the allow-list
    ends in [HTTPInternalServerError] when the store cannot hand out the
    collection, and in the error of the limit when the limit is out of
    range too, the limit being checked first. *)
Lemma sort_by_checked_after_get_collection :
  get_platforms (failing_store store_down) "Platform" sample_token
    sample_breadcrumb None None None (Some "invalid_field") None
    (fresh_world tt)
  = (Raise (HTTPInternalServerError "Failed to retrieve platforms"),
     World tt [GetCollection "Platform"]
       [(ERROR, [VStr "Error retrieving platforms: ";
                 VStr "connection refused"])])
  ∧ get_platforms ref_store "Platform" sample_token sample_breadcrumb None
      None (Some 0) (Some "invalid_field") None (fresh_world shuffled)
    = (Raise (HTTPBadRequest "limit must be >= 1"),
       World shuffled [GetCollection "Platform"] []).
Proof. split; reflexivity. Qed.


(** ** Page boundaries *)

Lemma page_of_rows_short (limit : Z) (rows : list document) :
  Z.of_nat (length rows) ≤ limit →
  page_of_rows limit rows = Page rows limit false None.
Proof.
  intros Hlen. unfold page_of_rows.
  destruct (Z.ltb_spec limit (Z.of_nat (length rows))); [lia|].
  by rewrite take_ge by lia.
Qed.

Lemma page_of_rows_long (limit : Z) (rows : list document) :
  1 ≤ limit → limit < Z.of_nat (length rows) →
  ∃ d, rows !! (Z.to_nat limit - 1)%nat = Some d
       ∧ page_of_rows limit rows
         = Page (take (Z.to_nat limit) rows) limit true
             (Some (oid_str (doc_id d))).
Proof.
  intros Hlimit Hlen. unfold page_of_rows.
  destruct (Z.ltb_spec limit (Z.of_nat (length rows))); [|lia].
  destruct (lookup_lt_is_Some_2 rows (Z.to_nat limit - 1)) as [d Hd]; [lia|].
  exists d. by rewrite Hd.
Qed.

Lemma run_query_nothing_matches bson_compare name_matches
    (docs : list document) (q : query) (sort_by : string) (order : direction)
    (n : Z) :
  Forall (λ d, query_test name_matches q d = false) docs →
  run_query bson_compare name_matches docs q sort_by order n = [].
Proof.
  intros Hnone. unfold run_query.
  replace (filter _ docs) with (@nil document); [by destruct (Z.to_nat n)|].
  symmetry. induction Hnone as [|d docs Hd _ IH]; [done|].
  rewrite filter_cons_False; [done|]. by rewrite Hd.
Qed.

(** C2. A list call with a limit in [1, 100] whose query answers [rows]
    asks the store for [limit + 1] rows and returns the first [limit] of
    them with that limit; when more than [limit] rows came back,
    [has_more] is true, [next_cursor] is the identifier of row [limit] and
    the row after it is left out; otherwise [has_more] is false and
    [next_cursor] is null. On the reference store an empty collection and
    a cursor at or past the last identifier give no item, [has_more] false
    and a null [next_cursor]. *)
Theorem list_page_shape :
  (∀ (S : Type) (mongo : MongoIO S) (coll : string)
     (tok : gmap string value) (bc : value) (name after_id : option string)
     (limit : Z) (sort_by order : string) (dir : direction)
     (cursor : option N) (w : world S) (c : Collection) (st1 st2 : S)
     (rows : list document),
     1 ≤ limit ≤ 100 → sort_by ∈ ALLOWED_SORT_FIELDS →
     parse_order order = Some dir → parse_cursor after_id = Some cursor →
     get_collection mongo coll (store w) = (Ok c, st1) →
     find mongo c (Query name cursor) sort_by dir (limit + 1) st1
       = (Ok rows, st2) →
     let out :=
       get_platforms mongo coll (VDict tok) bc name after_id (Some limit)
         (Some sort_by) (Some order) w in
     ∃ p, out.1 = Ok p
       ∧ calls out.2 = calls w ++ [GetCollection coll] ++
           [Find c (Query name cursor) sort_by dir (limit + 1)]
       ∧ p = Page (take (Z.to_nat limit) rows) limit (has_more p)
               (next_cursor p)
       ∧ Z.of_nat (length (items p)) ≤ limit
       ∧ (limit < Z.of_nat (length rows) →
          has_more p = true
          ∧ Z.of_nat (length (items p)) = limit
          ∧ (∃ d, rows !! (Z.to_nat limit - 1)%nat = Some d
                  ∧ last (items p) = Some d
                  ∧ next_cursor p = Some (oid_str (doc_id d)))
          ∧ items p !! Z.to_nat limit = None)
       ∧ (Z.of_nat (length rows) ≤ limit →
          has_more p = false ∧ next_cursor p = None ∧ items p = rows))
  ∧ (∀ bson_compare name_matches (st : mem_state) (coll : string)
       (tok : gmap string value) (bc : value) (name after_id : option string)
       (limit : Z) (sort_by order : string) (dir : direction)
       (cursor : option N) (w : world mem_state),
       1 ≤ limit ≤ 100 → sort_by ∈ ALLOWED_SORT_FIELDS →
       parse_order order = Some dir → parse_cursor after_id = Some cursor →
       (docs_of (store w) coll = []
        ∨ ∃ last_id, cursor = Some last_id
            ∧ Forall (λ d, (doc_id d ≤ last_id)%N) (docs_of (store w) coll)) →
       (get_platforms (mem_store bson_compare name_matches) coll (VDict tok)
          bc name after_id (Some limit) (Some sort_by) (Some order) w).1
       = Ok (Page [] limit false None)).
Proof.
  split.
  - intros S mongo coll tok bc name after_id limit sort_by order dir cursor
      w c st1 st2 rows Hlimit Hsort Horder Hcursor Hhandle Hfind out.
    subst out.
    rewrite (get_platforms_valid _ _ _ _ _ _ _ _ _ dir cursor _ c st1 st2
               (Ok rows)) by done.
    exists (page_of_rows limit rows). cbn [fst snd calls].
    split; [done|]. split; [done|]. split; [done|].
    split; [cbn [page_of_rows items]; rewrite length_take; lia|]. split.
    + intros Hlen.
      destruct (page_of_rows_long limit rows) as (d & Hd & ->); [lia|done|].
      simpl. split; [done|]. split; [rewrite length_take; lia|]. split.
      * exists d. split; [done|]. split; [|done].
        rewrite last_lookup, length_take, lookup_take_lt by lia.
        rewrite <- Hd. f_equal. lia.
      * apply lookup_ge_None. rewrite length_take. lia.
    + intros Hlen. by rewrite page_of_rows_short.
  - intros bson_compare name_matches st coll tok bc name after_id limit
      sort_by order dir cursor w Hlimit Hsort Horder Hcursor Hedge.
    rewrite (get_platforms_valid _ _ _ _ _ _ _ _ _ dir cursor _
               {| coll_name := coll |} (store w) (store w)
               (Ok (run_query bson_compare name_matches
                      (docs_of (store w) coll) (Query name cursor) sort_by
                      dir (limit + 1)))) by done.
    simpl. rewrite run_query_nothing_matches.
    + rewrite page_of_rows_short; [done|]. simpl. lia.
    + destruct Hedge as [->|(last_id & -> & Hpast)]; [done|].
      eapply Forall_impl; [exact Hpast|]. intros d Hd. simpl in Hd.
      unfold query_test, after_test. simpl.
      destruct (N.ltb_spec last_id (doc_id d)); [lia|].
      apply andb_false_r.
Qed.

(** ** Identifiers and their text *)

Lemma hex_value_digit (d : N) : (d < 16)%N → hex_value (hex_digit d) = Some d.
Proof.
  intros Hd.
  destruct d as [|p]; [done|].
  do 4 (destruct p as [p|p|]; try done); lia.
Qed.

Lemma hex_digit_no_space (d : N) : (d < 16)%N → is_space (hex_digit d) = false.
Proof.
  intros Hd.
  destruct d as [|p]; [done|].
  do 4 (destruct p as [p|p|]; try done); lia.
Qed.

Lemma fromhex_hex_of (k : nat) (n a : N) (acc : string) :
  fromhex (hex_of (k + k) n acc) a
  = fromhex acc (a * 256 ^ N.of_nat k + n mod 256 ^ N.of_nat k)%N.
Proof.
  revert n acc. induction k as [|k IH]; intros n acc.
  - simpl. rewrite N.mod_1_r. f_equal. lia.
  - replace (Datatypes.S k + Datatypes.S k)%nat
      with (Datatypes.S (Datatypes.S (k + k))) by lia.
    cbn [hex_of]. rewrite IH. cbn [fromhex].
    rewrite hex_digit_no_space by (apply N.mod_lt; lia).
    rewrite !hex_value_digit by (apply N.mod_lt; lia).
    f_equal. rewrite Nat2N.inj_succ, N.pow_succ_r'.
    rewrite N.Div0.div_div.
    rewrite (N.Div0.mod_mul_r n 256 (256 ^ N.of_nat k)).
    assert (H256 : (n mod 256 = n mod 16 + 16 * ((n / 16) mod 16))%N)
      by apply (N.Div0.mod_mul_r n 16 16).
    change (16 * 16)%N with 256%N.
    lia.
Qed.

Lemma length_hex_of (k : nat) (n : N) (acc : string) :
  String.length (hex_of k n acc) = (k + String.length acc)%nat.
Proof.
  revert n acc. induction k as [|k IH]; intros n acc; [done|].
  cbn [hex_of]. rewrite IH. simpl. lia.
Qed.

(** The text of an identifier parses back to it. *)
Lemma parse_oid_str (n : N) :
  valid_oid n → parse_object_id (oid_str n) = Some n.
Proof.
  intros Hn. unfold parse_object_id, oid_str.
  rewrite length_hex_of. simpl String.length. simpl Nat.eqb. cbv iota.
  change 24%nat with (12 + 12)%nat.
  rewrite fromhex_hex_of. cbn [fromhex]. f_equal.
  rewrite N.mul_0_l, N.add_0_l. apply N.mod_small. exact Hn.
Qed.

(** ** Sorted lists and filters *)

Lemma filter_all {A} (P : A → Prop) `{∀ x, Decision (P x)} (l : list A) :
  Forall P l → filter P l = l.
Proof.
  induction 1 as [|x l Hx _ IH]; [done|].
  by rewrite filter_cons_True, IH.
Qed.

Lemma filter_none {A} (P : A → Prop) `{∀ x, Decision (P x)} (l : list A) :
  Forall (λ x, ¬ P x) l → filter P l = [].
Proof.
  induction 1 as [|x l Hx _ IH]; [done|].
  by rewrite filter_cons_False.
Qed.

Lemma StronglySorted_filter {A} (R : relation A) (P : A → Prop)
    `{∀ x, Decision (P x)} (l : list A) :
  StronglySorted R l → StronglySorted R (filter P l).
Proof.
  induction 1 as [|x l Hl IH Hx]; [constructor|].
  rewrite filter_cons. case_decide; [|done].
  constructor; [done|].
  rewrite Forall_forall in Hx |- *.
  intros y [_ Hy]%list_elem_of_filter. auto.
Qed.

Lemma NoDup_fmap_filter {A B} (f : A → B) (P : A → Prop)
    `{∀ x, Decision (P x)} (l : list A) :
  NoDup (f <$> l) → NoDup (f <$> filter P l).
Proof.
  induction l as [|x l IH]; [done|].
  rewrite fmap_cons, NoDup_cons. intros [Hx Hl].
  rewrite filter_cons. case_decide; [|auto].
  rewrite fmap_cons, NoDup_cons. split; [|auto].
  intros (y & Hxy & [_ Hy]%list_elem_of_filter)%list_elem_of_fmap.
  apply Hx. rewrite Hxy. by apply list_elem_of_fmap_2.
Qed.

#[local] Instance id_lt_transitive : Transitive id_lt.
Proof. unfold id_lt. intros a b c. lia. Qed.

(** In a list sorted by identifier, the documents after the one at
    position [i] are those from position [i + 1] on. *)
Lemma filter_after_drop (l : list document) (i : nat) (d : document) :
  StronglySorted id_lt l → l !! i = Some d →
  filter (λ x, (doc_id d <? doc_id x)%N = true) l = drop (Datatypes.S i) l.
Proof.
  intros Hsorted Hi.
  rewrite <- (take_drop_middle l i d Hi) in Hsorted |- * at 1.
  apply StronglySorted_app in Hsorted as (Hcross & _ & Htail).
  apply StronglySorted_cons in Htail as [Htail _].
  rewrite filter_app, filter_cons_False, filter_none, filter_all; [done|..].
  - eapply Forall_impl; [exact Htail|]. unfold id_lt. intros x Hx.
    by apply N.ltb_lt.
  - apply Forall_forall. intros x Hx.
    specialize (Hcross x d Hx (list_elem_of_here _ _)). unfold id_lt in Hcross.
    rewrite N.ltb_lt. lia.
  - rewrite N.ltb_lt. lia.
Qed.

(** ** A sort that follows the identifiers *)

Section Aligned.
Context (bson_compare : value → value → comparison).
Context (name_matches : string → gmap string value → bool).
Context (sort_by : string) (order : direction) (docs : list document).
Context (name : option string).

Hypothesis compare_antisym :
  ∀ a b, bson_compare a b = CompOpp (bson_compare b a).
Hypothesis distinct_ids : NoDup (doc_id <$> docs).
Hypothesis aligned_docs : follows_ids bson_compare sort_by order docs = true.

#[local] Abbreviation before := (sorts_before bson_compare sort_by order).
#[local] Abbreviation named_docs :=
  (filter (λ d, name_test name_matches name d = true) docs).
#[local] Abbreviation after cursor := (λ d, after_test cursor d = true).

Lemma dir_compare_antisym (a b : value) :
  dir_compare bson_compare order a b
  = CompOpp (dir_compare bson_compare order b a).
Proof. destruct order; apply compare_antisym. Qed.

#[local] Instance before_total : Total before.
Proof.
  intros a b. unfold sorts_before, doc_before.
  rewrite (dir_compare_antisym (sort_key sort_by b)).
  destruct (dir_compare _ _ (sort_key sort_by a) _); simpl; auto.
  destruct (N.leb_spec (doc_id a) (doc_id b)); [by left|right].
  apply N.leb_le. lia.
Qed.

Lemma before_ids (a b : document) :
  a ∈ docs → b ∈ docs → doc_id a ≠ doc_id b → before a b → id_lt a b.
Proof.
  intros Ha Hb Hne Hab. unfold id_lt.
  destruct (N.lt_trichotomy (doc_id a) (doc_id b)) as [?|[?|Hlt]]; [done..|].
  exfalso.
  assert (Hba : doc_before bson_compare sort_by order b a = true).
  { unfold follows_ids in aligned_docs.
    rewrite forallb_forall in aligned_docs.
    specialize (aligned_docs b (proj1 (list_elem_of_In _ _) Hb)).
    rewrite forallb_forall in aligned_docs.
    specialize (aligned_docs a (proj1 (list_elem_of_In _ _) Ha)).
    apply N.ltb_lt in Hlt. by rewrite Hlt in aligned_docs. }
  revert Hab Hba. unfold sorts_before, doc_before.
  rewrite (dir_compare_antisym (sort_key sort_by b)).
  destruct (dir_compare _ _ (sort_key sort_by a) _); simpl; try done.
  rewrite !N.leb_le. lia.
Qed.

Lemma Sorted_before_ids (l : list document) :
  l ⊆ docs → NoDup (doc_id <$> l) → Sorted before l →
  StronglySorted id_lt l.
Proof.
  intros Hsub Hnodup Hsorted. apply Sorted_StronglySorted; [apply _|].
  induction Hsorted as [|a l Hsorted IH Hhd]; [constructor|].
  rewrite fmap_cons, NoDup_cons in Hnodup. destruct Hnodup as [Ha Hnodup].
  constructor.
  - apply IH; [|done]. intros x Hx. apply Hsub. by right.
  - destruct Hhd as [|b l Hab]; constructor.
    apply before_ids; [apply Hsub; by left|apply Hsub; right; by left| |done].
    intros Heq. apply Ha. rewrite Heq. rewrite fmap_cons. by left.
Qed.

Lemma sorted_matches_ids (P : document → Prop) `{∀ d, Decision (P d)} :
  StronglySorted id_lt (merge_sort before (filter P docs)).
Proof.
  apply Sorted_before_ids.
  - intros x. rewrite merge_sort_Permutation. by intros [_ ?]%list_elem_of_filter.
  - rewrite merge_sort_Permutation. by apply NoDup_fmap_filter.
  - apply Sorted_merge_sort. apply _.
Qed.

(** The rows of a page query are the rows of the first query that lie
    after the cursor. *)
Lemma query_rows (cursor : option N) :
  merge_sort before
    (filter (λ d, query_test name_matches (Query name cursor) d = true) docs)
  = filter (after cursor) (merge_sort before named_docs).
Proof.
  apply (StronglySorted_unique_strong id_lt).
  - unfold id_lt. intros x y _ _. lia.
  - apply sorted_matches_ids.
  - apply StronglySorted_filter, sorted_matches_ids.
  - rewrite !merge_sort_Permutation, list_filter_filter.
    erewrite list_filter_iff; [done|].
    intros d. unfold query_test. simpl. rewrite andb_true_iff. tauto.
Qed.

(** The page after the document at position [i] of a page starts at
    position [i + 1]. *)
Lemma next_page_rows (cursor : option N) (i : nat) (d : document) :
  filter (after cursor) (merge_sort before named_docs) !! i = Some d →
  filter (after (Some (doc_id d))) (merge_sort before named_docs)
  = drop (Datatypes.S i)
      (filter (after cursor) (merge_sort before named_docs)).
Proof.
  intros Hi.
  rewrite <- (filter_after_drop _ i d);
    [|apply StronglySorted_filter, sorted_matches_ids|done].
  rewrite list_filter_filter. apply list_filter_iff.
  intros x. simpl. split; [|tauto]. intros Hx. split; [done|].
  apply list_elem_of_lookup_2, list_elem_of_filter in Hi as [Hd _].
  destruct cursor as [c|]; [|done]. simpl in *.
  rewrite N.ltb_lt in *. lia.
Qed.

Context (coll : string) (tok : gmap string value) (bc : value).
Context (limit : Z) (order_text : string).

Hypothesis limit_in_range : 1 ≤ limit ≤ 100.
Hypothesis sort_by_allowed : sort_by ∈ ALLOWED_SORT_FIELDS.
Hypothesis order_parses : parse_order order_text = Some order.
Hypothesis valid_ids : Forall (λ d, valid_oid (doc_id d)) docs.

(** A scroll resumed at a cursor collects the documents after the cursor,
    in identifier order, provided it may ask for enough pages. *)
Lemma scroll_from (fuel : nat) (after_id : option string)
    (cursor : option N) (w : world mem_state) :
  docs_of (store w) coll = docs →
  parse_cursor after_id = Some cursor →
  (length (filter (after cursor) (merge_sort before named_docs)) < fuel)%nat →
  (scroll (mem_store bson_compare name_matches) coll fuel (VDict tok) bc
     name (Some limit) (Some sort_by) (Some order_text) after_id w).1
  = Ok (Some (filter (after cursor) (merge_sort before named_docs))).
Proof.
  revert after_id cursor w.
  induction fuel as [|fuel IH]; intros after_id cursor w Hdocs Hcursor Hfuel;
    [lia|].
  cbn [scroll]. unfold bind at 1.
  rewrite (get_platforms_valid _ _ _ _ _ _ _ _ _ order cursor _
             {| coll_name := coll |} (store w) (store w)
             (Ok (run_query bson_compare name_matches
                    (docs_of (store w) coll) (Query name cursor) sort_by
                    order (limit + 1)))) by done.
  rewrite Hdocs. unfold run_query. rewrite query_rows.
  set (rest := filter (after cursor) (merge_sort before named_docs)) in *.
  set (rows := take (Z.to_nat (limit + 1)) rest).
  match goal with
  | |- context [World (store w) ?c ?l] => set (w1 := World (store w) c l)
  end.
  destruct (decide (length rest ≤ Z.to_nat limit)%nat) as [Hshort|Hlong].
  - assert (Hrows : rows = rest) by (apply take_ge; lia).
    rewrite Hrows, page_of_rows_short by lia. reflexivity.
  - assert (Hlen : length rows = Datatypes.S (Z.to_nat limit)).
    { subst rows. rewrite length_take. lia. }
    destruct (page_of_rows_long limit rows) as (d & Hd & ->); [lia|lia|].
    cbn [has_more items next_cursor]. unfold bind at 1.
    assert (Hrest : rest !! (Z.to_nat limit - 1)%nat = Some d).
    { rewrite <- Hd. subst rows. symmetry. apply lookup_take_lt. lia. }
    assert (Hin : d ∈ docs).
    { apply list_elem_of_lookup_2 in Hrest. subst rest.
      apply list_elem_of_filter in Hrest as [_ Hrest].
      rewrite merge_sort_Permutation in Hrest.
      by apply list_elem_of_filter in Hrest as [_ ?]. }
    assert (Hnext : parse_cursor (Some (oid_str (doc_id d)))
                    = Some (Some (doc_id d))).
    { unfold parse_cursor. rewrite parse_oid_str; [done|].
      rewrite Forall_forall in valid_ids. by apply valid_ids. }
    specialize (IH (Some (oid_str (doc_id d))) (Some (doc_id d)) w1 Hdocs
                  Hnext).
    rewrite (next_page_rows cursor (Z.to_nat limit - 1) d Hrest) in IH.
    fold rest in IH.
    replace (Datatypes.S (Z.to_nat limit - 1)) with (Z.to_nat limit) in IH
      by lia.
    destruct (scroll _ _ fuel _ _ _ _ _ _ _ w1) as [r w2].
    simpl in IH. rewrite IH by (rewrite length_drop; lia).
    unfold ret. simpl. do 2 f_equal.
    subst rows. rewrite take_take.
    replace (Z.to_nat limit `min` Z.to_nat (limit + 1))%nat
      with (Z.to_nat limit) by lia.
    apply take_drop.
Qed.
End Aligned.

(** ** The scroll *)

Section ScrollEnds.
Context (bson_compare : value → value → comparison).
Context (name_matches : string → gmap string value → bool).
Context (coll : string) (tok : gmap string value) (bc : value).
Context (name : option string) (limit : Z) (sort_by order_text : string).
Context (order : direction) (docs : list document).

Hypothesis limit_in_range : 1 ≤ limit ≤ 100.
Hypothesis sort_by_allowed : sort_by ∈ ALLOWED_SORT_FIELDS.
Hypothesis order_parses : parse_order order_text = Some order.
Hypothesis valid_ids : Forall (λ d, valid_oid (doc_id d)) docs.

#[local] Abbreviation matching cursor :=
  (filter (λ d, query_test name_matches (Query name cursor) d = true) docs).

(** The documents a later page can still return are fewer: the cursor
    taken from a page is itself among those of this page and not among
    those of the next. *)
Lemma fewer_after_cursor (cursor : option N) (d : document) :
  d ∈ matching cursor →
  (length (matching (Some (doc_id d))) < length (matching cursor))%nat.
Proof.
  intros Hd.
  assert (Hnext : matching (Some (doc_id d))
                  = filter (λ x, (doc_id d <? doc_id x)%N = true)
                      (matching cursor)).
  { rewrite list_filter_filter. apply list_filter_iff. intros x.
    apply list_elem_of_filter in Hd as [Hd _].
    unfold query_test in *. cbn [q_name q_after after_test] in *.
    rewrite !andb_true_iff in *. destruct Hd as [_ Hd].
    split; [|tauto]. intros [Hname Hafter]. repeat split; try done.
    destruct cursor as [c|]; [|done]. simpl in *.
    rewrite N.ltb_lt in *. lia. }
  rewrite Hnext. apply (length_filter_lt _ _ d); [done|].
  rewrite N.ltb_lt. lia.
Qed.

(** Whatever the sort, the scroll ends within one page per document that
    is still after the cursor, plus one. *)
Lemma scroll_ends (fuel : nat) (after_id : option string)
    (cursor : option N) (w : world mem_state) :
  docs_of (store w) coll = docs →
  parse_cursor after_id = Some cursor →
  (length (matching cursor) < fuel)%nat →
  ∃ l,
    (scroll (mem_store bson_compare name_matches) coll fuel (VDict tok) bc
       name (Some limit) (Some sort_by) (Some order_text) after_id w).1
    = Ok (Some l).
Proof.
  revert after_id cursor w.
  induction fuel as [|fuel IH]; intros after_id cursor w Hdocs Hcursor Hfuel;
    [lia|].
  cbn [scroll]. unfold bind at 1.
  rewrite (get_platforms_valid _ _ _ _ _ _ _ _ _ order cursor _
             {| coll_name := coll |} (store w) (store w)
             (Ok (run_query bson_compare name_matches
                    (docs_of (store w) coll) (Query name cursor) sort_by
                    order (limit + 1)))) by done.
  rewrite Hdocs.
  set (rows := run_query bson_compare name_matches docs (Query name cursor)
                 sort_by order (limit + 1)).
  match goal with
  | |- context [World (store w) ?c ?l] => set (w1 := World (store w) c l)
  end.
  destruct (decide (Z.of_nat (length rows) ≤ limit)) as [Hshort|Hlong].
  - rewrite page_of_rows_short by done. by eexists.
  - destruct (page_of_rows_long limit rows) as (d & Hd & ->); [lia|lia|].
    cbn [has_more items next_cursor]. unfold bind at 1.
    assert (Hin : d ∈ matching cursor).
    { apply list_elem_of_lookup_2 in Hd. subst rows. unfold run_query in Hd.
      apply elem_of_take in Hd as (i & Hd & _).
      apply list_elem_of_lookup_2 in Hd.
      by rewrite merge_sort_Permutation in Hd. }
    assert (Hnext : parse_cursor (Some (oid_str (doc_id d)))
                    = Some (Some (doc_id d))).
    { unfold parse_cursor. rewrite parse_oid_str; [done|].
      rewrite Forall_forall in valid_ids. apply valid_ids.
      by apply list_elem_of_filter in Hin as [_ ?]. }
    destruct (IH (Some (oid_str (doc_id d))) (Some (doc_id d)) w1 Hdocs
                Hnext) as [rest Hrest].
    { pose proof (fewer_after_cursor cursor d Hin). lia. }
    destruct (scroll _ _ fuel _ _ _ _ _ _ _ w1) as [r w2].
    simpl in Hrest. rewrite Hrest. by eexists.
Qed.
End ScrollEnds.

(** C1, as the code has it. On the reference store, with identifiers that
    twelve bytes can spell, the scroll from no cursor ends within one page
    per document plus one, whatever the sort field and the order. When
    moreover the identifiers are distinct, the order on values is
    antisymmetric and the requested sort follows the identifiers, its
    pages hold every document that passes the name filter exactly once:
    every document of the collection when there is no filter. *)
Theorem scroll_ends_and_is_exact_when_aligned
    (bson_compare : value → value → comparison)
    (name_matches : string → gmap string value → bool) (coll : string)
    (tok : gmap string value) (bc : value) (name : option string)
    (limit : Z) (sort_by order_text : string) (order : direction)
    (w : world mem_state) :
  Forall (λ d, valid_oid (doc_id d)) (docs_of (store w) coll) →
  1 ≤ limit ≤ 100 → sort_by ∈ ALLOWED_SORT_FIELDS →
  parse_order order_text = Some order →
  ∃ l,
    (scroll (mem_store bson_compare name_matches) coll
       (Datatypes.S (length (docs_of (store w) coll))) (VDict tok) bc name
       (Some limit) (Some sort_by) (Some order_text) None w).1
    = Ok (Some l)
    ∧ ((∀ a b, bson_compare a b = CompOpp (bson_compare b a)) →
       NoDup (doc_id <$> docs_of (store w) coll) →
       follows_ids bson_compare sort_by order (docs_of (store w) coll)
         = true →
       l ≡ₚ filter (λ d, name_test name_matches name d = true)
              (docs_of (store w) coll)
       ∧ NoDup l
       ∧ (name = None → l ≡ₚ docs_of (store w) coll)).
Proof.
  intros Hvalid Hlimit Hsort Horder.
  set (docs := docs_of (store w) coll) in *.
  destruct (scroll_ends bson_compare name_matches coll tok bc name limit
              sort_by order_text order docs Hlimit Hsort Horder Hvalid
              (Datatypes.S (length docs)) None None w eq_refl eq_refl)
    as [l Hl].
  { pose proof (length_filter
      (λ d, query_test name_matches (Query name None) d = true) docs). lia. }
  exists l. split; [exact Hl|].
  intros Hanti Hnodup Haligned.
  set (sorted := merge_sort (sorts_before bson_compare sort_by order)
                   (filter (λ d, name_test name_matches name d = true) docs)).
  assert (Hperm : sorted ≡ₚ
            filter (λ d, name_test name_matches name d = true) docs)
    by apply merge_sort_Permutation.
  assert (Hsorted : l = sorted).
  { pose proof (scroll_from bson_compare name_matches sort_by order docs
                  name Hanti Hnodup Haligned coll tok bc limit order_text
                  Hlimit Hsort Horder Hvalid (Datatypes.S (length docs))
                  None None w eq_refl eq_refl) as Hexact.
    rewrite filter_all in Hexact by by apply Forall_forall.
    rewrite Hl in Hexact. fold sorted in Hexact.
    assert (Hfuel : (length sorted < Datatypes.S (length docs))%nat).
    { rewrite Hperm. pose proof (length_filter
        (λ d, name_test name_matches name d = true) docs). lia. }
    specialize (Hexact Hfuel). by injection Hexact. }
  rewrite Hsorted. split; [done|]. split.
  - rewrite Hperm. apply (NoDup_fmap_1 doc_id).
    by apply NoDup_fmap_filter.
  - intros ->. rewrite Hperm. by rewrite filter_all by by apply Forall_forall.
Qed.

(** C1, as the claim has it, fails when the sort does not follow the
    identifiers. Three platforms, names "b", "a", "c" in the order of
    their identifiers, one per page by name ascending: the first page is
    "a" with its identifier as cursor, the second holds what comes after
    that identifier, and "b" is never returned. *)
Lemma scroll_skips_a_document :
  (scroll ref_store "Platform" 4 sample_token sample_breadcrumb None
     (Some 1) (Some "name") (Some "asc") None (fresh_world shuffled)).1
  = Ok (Some [named 2 "a"; named 3 "c"])
  ∧ named 1 "b" ∈ docs_of shuffled "Platform"
  ∧ named 1 "b" ∉ [named 2 "a"; named 3 "c"].
Proof.
  split; [vm_compute; reflexivity|]. split.
  - unfold docs_of, shuffled. simpl. rewrite lookup_singleton_eq. by left.
  - intros [[=]|[[=]|[]%elem_of_nil]%elem_of_cons]%elem_of_cons.
Qed.

(** The same collection, two per page by name descending: "c" comes
    twice. *)
Lemma scroll_repeats_a_document :
  (scroll ref_store "Platform" 4 sample_token sample_breadcrumb None
     (Some 2) (Some "name") (Some "desc") None (fresh_world shuffled)).1
  = Ok (Some [named 3 "c"; named 1 "b"; named 3 "c"; named 2 "a"]).
Proof. vm_compute. reflexivity. Qed.

Lemma string_order_antisym (a b : value) :
  string_order a b = CompOpp (string_order b a).
Proof.
  destruct a, b; simpl; try done. apply String.compare_antisym.
Qed.

(** ** The theorems at sample requests *)

Lemma create_platform_stamps_witness :
  create_document ref_store "Platform"
    (stamped payload_with_id sample_breadcrumb) (store (fresh_world shuffled))
  = (Ok (oid_str 4),
     (mem_create "Platform" (stamped payload_with_id sample_breadcrumb)
        shuffled).2)
  ∧ (create_platform ref_store "Platform" payload_with_id
       (VDict sample_claims) sample_breadcrumb (fresh_world shuffled)
     = (Ok (oid_str 4),
        World
          (mem_create "Platform" (stamped payload_with_id sample_breadcrumb)
             shuffled).2
          (calls (fresh_world shuffled) ++
             [CreateDocument "Platform"
                (stamped payload_with_id sample_breadcrumb)])
          (logs (fresh_world shuffled) ++
             [(INFO, [VStr "Created platform "; VStr (oid_str 4);
                      VStr " for user ";
                      default VNone (sample_claims !! "user_id")])]))
     ∧ stamped payload_with_id sample_breadcrumb !! "_id" = None
     ∧ stamped payload_with_id sample_breadcrumb !! "created"
       = Some sample_breadcrumb
     ∧ stamped payload_with_id sample_breadcrumb !! "saved"
       = Some sample_breadcrumb
     ∧ ∀ k, k ∉ restricted_fields →
         stamped payload_with_id sample_breadcrumb !! k
         = payload_with_id !! k).
Proof.
  split; [reflexivity|].
  apply (create_platform_stamps ref_store "Platform" payload_with_id
           sample_claims sample_breadcrumb (fresh_world shuffled)).
  reflexivity.
Defined.

Lemma update_rejects_restricted_witness :
  "saved" ∈ restricted_fields
  ∧ is_Some (payload_with_saved !! "saved")
  ∧ ∃ f,
      f ∈ restricted_fields ∧ is_Some (payload_with_saved !! f)
      ∧ ((∀ g, g ∈ restricted_fields → is_Some (payload_with_saved !! g) →
            g = "saved") → f = "saved")
      ∧ update_platform ref_store "Platform" (oid_str 2) payload_with_saved
          sample_token later_breadcrumb (fresh_world shuffled)
        = (Raise (HTTPForbidden ("Cannot update " +:+ f +:+ " field")),
           fresh_world shuffled).
Proof.
  assert (Hin : "saved" ∈ restricted_fields)
    by (unfold restricted_fields; do 2 right; left).
  assert (Hsome : is_Some (payload_with_saved !! "saved"))
    by (eexists; reflexivity).
  split; [exact Hin|]. split; [exact Hsome|].
  exact (update_rejects_restricted ref_store "Platform" (oid_str 2)
           payload_with_saved sample_token later_breadcrumb
           (fresh_world shuffled) "saved" Hin Hsome).
Defined.

Lemma payload_rename_clean :
  Forall (λ f, payload_rename !! f = None) restricted_fields.
Proof. repeat constructor. Qed.

Lemma update_platform_outcome_witness :
  Forall (λ f, payload_rename !! f = None) restricted_fields
  ∧ update_document ref_store "Platform" (oid_str 2)
      (<["saved" := later_breadcrumb]> payload_rename)
      (store (fresh_world shuffled))
    = mem_update "Platform" (oid_str 2)
        (<["saved" := later_breadcrumb]> payload_rename) shuffled
  ∧ (update_platform ref_store "Platform" (oid_str 2) payload_rename
       (VDict sample_claims) later_breadcrumb (fresh_world shuffled)).1
    = Ok (doc_to_dict
            (Document 2 (<["saved" := later_breadcrumb]> payload_rename))).
Proof.
  split; [exact payload_rename_clean|]. split; [reflexivity|].
  destruct (update_platform_outcome ref_store "Platform" (oid_str 2)
              payload_rename sample_claims later_breadcrumb
              (fresh_world shuffled)
              (mem_update "Platform" (oid_str 2)
                 (<["saved" := later_breadcrumb]> payload_rename) shuffled).1
              (mem_update "Platform" (oid_str 2)
                 (<["saved" := later_breadcrumb]> payload_rename) shuffled).2
              payload_rename_clean eq_refl)
    as (_ & Hfound & _).
  rewrite (Hfound _ eq_refl). vm_compute. reflexivity.
Defined.

Lemma name_allowed : "name" ∈ ALLOWED_SORT_FIELDS.
Proof. by left. Qed.

Lemma invalid_field_not_allowed : "invalid_field" ∉ ALLOWED_SORT_FIELDS.
Proof.
  unfold ALLOWED_SORT_FIELDS. intros H.
  repeat (apply elem_of_cons in H as [[=]|H]). by apply elem_of_nil in H.
Qed.

Lemma scroll_witness :
  Forall (λ d, valid_oid (doc_id d))
    (docs_of (store (fresh_world aligned)) "Platform")
  ∧ 1 ≤ 2 ≤ 100
  ∧ "name" ∈ ALLOWED_SORT_FIELDS
  ∧ parse_order "asc" = Some Asc
  ∧ (∀ a b, string_order a b = CompOpp (string_order b a))
  ∧ NoDup (doc_id <$> docs_of (store (fresh_world aligned)) "Platform")
  ∧ follows_ids string_order "name" Asc
      (docs_of (store (fresh_world aligned)) "Platform") = true
  ∧ (∃ l,
       (scroll ref_store "Platform" 4 (VDict sample_claims)
          sample_breadcrumb None (Some 2) (Some "name") (Some "asc") None
          (fresh_world aligned)).1 = Ok (Some l)
       ∧ l ≡ₚ docs_of (store (fresh_world aligned)) "Platform"
       ∧ NoDup l)
  ∧ Forall (λ d, valid_oid (doc_id d))
      (docs_of (store (fresh_world shuffled)) "Platform")
  ∧ ∃ l,
      (scroll ref_store "Platform" 4 (VDict sample_claims)
         sample_breadcrumb None (Some 2) (Some "name") (Some "asc") None
         (fresh_world shuffled)).1 = Ok (Some l).
Proof.
  assert (Hnodup :
    NoDup (doc_id <$> docs_of (store (fresh_world aligned)) "Platform")).
  { apply (bool_decide_unpack _). vm_compute. exact I. }
  assert (Hvalid : Forall (λ d, valid_oid (doc_id d))
                     (docs_of (store (fresh_world aligned)) "Platform")).
  { repeat constructor. }
  assert (Hvalid' : Forall (λ d, valid_oid (doc_id d))
                      (docs_of (store (fresh_world shuffled)) "Platform")).
  { repeat constructor. }
  assert (Hlimit : 1 ≤ 2 ≤ 100) by lia.
  split; [exact Hvalid|]. split; [exact Hlimit|].
  split; [exact name_allowed|]. split; [reflexivity|].
  split; [exact string_order_antisym|]. split; [exact Hnodup|].
  split; [reflexivity|]. split; [|split; [exact Hvalid'|]].
  - destruct (scroll_ends_and_is_exact_when_aligned string_order name_is
                "Platform" sample_claims sample_breadcrumb None 2 "name"
                "asc" Asc (fresh_world aligned) Hvalid Hlimit name_allowed
                eq_refl) as (l & Hl & Hexact).
    destruct (Hexact string_order_antisym Hnodup eq_refl)
      as (_ & Honce & Hall).
    exists l. split; [exact Hl|]. split; [exact (Hall eq_refl)|exact Honce].
  - destruct (scroll_ends_and_is_exact_when_aligned string_order name_is
                "Platform" sample_claims sample_breadcrumb None 2 "name"
                "asc" Asc (fresh_world shuffled) Hvalid' Hlimit name_allowed
                eq_refl) as (l & Hl & _).
    exists l. exact Hl.
Defined.

Lemma list_page_shape_witness :
  (1 ≤ 2 ≤ 100
   ∧ "name" ∈ ALLOWED_SORT_FIELDS
   ∧ parse_order "asc" = Some Asc
   ∧ parse_cursor None = Some None
   ∧ get_collection ref_store "Platform" (store (fresh_world shuffled))
     = (Ok {| coll_name := "Platform" |}, shuffled)
   ∧ find ref_store {| coll_name := "Platform" |} (Query None None) "name"
       Asc (2 + 1) shuffled
     = (Ok [named 2 "a"; named 1 "b"; named 3 "c"], shuffled)
   ∧ ∃ p,
       (get_platforms ref_store "Platform" (VDict sample_claims)
          sample_breadcrumb None None (Some 2) (Some "name") (Some "asc")
          (fresh_world shuffled)).1 = Ok p
       ∧ has_more p = true
       ∧ items p = [named 2 "a"; named 1 "b"]
       ∧ next_cursor p = Some (oid_str 1))
  ∧ (docs_of (store (fresh_world empty_store)) "Platform" = []
     ∧ (get_platforms ref_store "Platform" (VDict sample_claims)
          sample_breadcrumb None None (Some 2) (Some "name") (Some "asc")
          (fresh_world empty_store)).1
       = Ok (Page [] 2 false None)).
Proof.
  assert (Hlimit : 1 ≤ 2 ≤ 100) by lia.
  split.
  - repeat (split; [first [exact Hlimit | exact name_allowed
                          | vm_compute; reflexivity]|]).
    destruct (proj1 list_page_shape mem_state ref_store "Platform"
                sample_claims sample_breadcrumb None None 2 "name" "asc" Asc
                None (fresh_world shuffled) {| coll_name := "Platform" |}
                shuffled shuffled [named 2 "a"; named 1 "b"; named 3 "c"]
                Hlimit name_allowed eq_refl eq_refl eq_refl eq_refl)
      as (p & Hp & _ & Hshape & _ & Hmore & _).
    destruct Hmore as (Hmore & _ & (d & [= <-] & _ & Hcursor) & _);
      [simpl; lia|].
    exists p. split; [exact Hp|]. split; [exact Hmore|].
    split; [by rewrite Hshape|exact Hcursor].
  - split; [reflexivity|].
    exact (proj2 list_page_shape string_order name_is empty_store "Platform"
             sample_claims sample_breadcrumb None None 2 "name" "asc" Asc
             None (fresh_world empty_store) Hlimit name_allowed eq_refl
             eq_refl (or_introl eq_refl)).
Defined.

Lemma limit_out_of_range_witness :
  ¬ (1 ≤ 101 ≤ 100)
  ∧ get_collection ref_store "Platform" (store (fresh_world shuffled))
    = (Ok {| coll_name := "Platform" |}, shuffled)
  ∧ get_platforms ref_store "Platform" sample_token sample_breadcrumb None
      None (Some 101) (Some "name") (Some "asc") (fresh_world shuffled)
    = (Raise (HTTPBadRequest "limit must be <= 100"),
       World shuffled [GetCollection "Platform"] []).
Proof.
  assert (Hlimit : ¬ (1 ≤ 101 ≤ 100)) by lia.
  split; [exact Hlimit|]. split; [reflexivity|].
  exact (proj1 (limit_out_of_range_rejected ref_store "Platform" sample_token
                  sample_breadcrumb None None 101 "name" "asc"
                  (fresh_world shuffled) {| coll_name := "Platform" |}
                  shuffled Hlimit eq_refl)).
Defined.

Lemma sort_by_rejected_witness :
  ("invalid_field" ∉ ALLOWED_SORT_FIELDS)
  ∧ get_collection ref_store "Platform" (store (fresh_world shuffled))
    = (Ok {| coll_name := "Platform" |}, shuffled)
  ∧ 1 ≤ 10 ≤ 100
  ∧ get_platforms ref_store "Platform" sample_token sample_breadcrumb None
      None (Some 10) (Some "invalid_field") (Some "asc")
      (fresh_world shuffled)
    = (Raise (HTTPBadRequest
                "sort_by must be one of: name, description, status, created.at_time, saved.at_time"),
       World shuffled [GetCollection "Platform"] []).
Proof.
  assert (Hlimit : 1 ≤ 10 ≤ 100) by lia.
  split; [exact invalid_field_not_allowed|]. split; [reflexivity|].
  split; [exact Hlimit|].
  exact (proj1 (proj2 (sort_by_outside_allow_list_rejected ref_store
                         "Platform" sample_token sample_breadcrumb None None
                         10 "invalid_field" "asc" (fresh_world shuffled)
                         {| coll_name := "Platform" |} shuffled
                         invalid_field_not_allowed eq_refl))
           Hlimit).
Defined.


Lemma store_faults_translated_witness :
  is_not_found store_down = false
  ∧ get_document (faulty_store store_down) "Platform" (oid_str 2)
      (store (fresh_world tt)) = (Raise store_down, tt)
  ∧ get_platform (faulty_store store_down) "Platform" (oid_str 2)
      sample_token sample_breadcrumb (fresh_world tt)
    = (Raise (HTTPInternalServerError
                ("Failed to retrieve platform " +:+ oid_str 2)),
       World tt [GetDocument "Platform" (oid_str 2)]
         [(ERROR, [VStr "Error retrieving platform "; VStr (oid_str 2);
                   VStr ": "; VStr "connection refused"])]).
Proof.
  do 2 (split; [reflexivity|]).
  destruct (store_faults_translated (faulty_store store_down) "Platform"
              store_down sample_token sample_breadcrumb (fresh_world tt) tt)
    as (_ & _ & _ & Hread & _).
  exact (Hread (oid_str 2) eq_refl eq_refl).
Defined.

Lemma permission_check_witness :
  serve ref_store "Platform"
    (Update (oid_str 2) payload_with_saved sample_token later_breadcrumb)
    (fresh_world shuffled)
  = (Raise (HTTPForbidden "Cannot update saved field"), fresh_world shuffled)
  ∧ ((∃ platform_id data token bc f,
        Update (oid_str 2) payload_with_saved sample_token later_breadcrumb
        = Update platform_id data token bc
        ∧ f ∈ restricted_fields ∧ is_Some (data !! f)
        ∧ "Cannot update saved field" = "Cannot update " +:+ f +:+ " field"
        ∧ fresh_world shuffled = fresh_world shuffled)
     ∨ (∃ data token bc,
          Update (oid_str 2) payload_with_saved sample_token later_breadcrumb
          = Create data token bc
          ∧ (create_document ref_store "Platform" (stamped data bc)
               (store (fresh_world shuffled))).1
            = Raise (HTTPForbidden "Cannot update saved field"))
     ∨ (∃ platform_id data token bc,
          Update (oid_str 2) payload_with_saved sample_token later_breadcrumb
          = Update platform_id data token bc
          ∧ (update_document ref_store "Platform" platform_id
               (set_data_of data bc) (store (fresh_world shuffled))).1
            = Raise (HTTPForbidden "Cannot update saved field"))).
Proof.
  split; [reflexivity|].
  exact (proj2 (permission_check_is_a_stub ref_store "Platform")
           (Update (oid_str 2) payload_with_saved sample_token
              later_breadcrumb)
           (fresh_world shuffled) (fresh_world shuffled)
           "Cannot update saved field" eq_refl).
Defined.

(** * Further properties of the service *)

Section ServiceOutcomes.
Context {S : Type} (mongo : MongoIO S) (coll : string).

(** X1. [get_platform] returns the document the store answers with and
    raises [HTTPNotFound], naming the identifier, exactly when the store
    resolves no document for it. *)
Theorem get_platform_outcome (platform_id : string)
    (tok : gmap string value) (bc : value) (w : world S)
    (r : result (option (gmap string value))) (st' : S) :
  get_document mongo coll platform_id (store w) = (r, st') →
  let asked := calls w ++ [GetDocument coll platform_id] in
  let out := get_platform mongo coll platform_id (VDict tok) bc w in
  (∀ d, r = Ok (Some d) →
     out = (Ok d,
            World st' asked
              (logs w ++ [(INFO, [VStr "Retrieved platform ";
                                  VStr platform_id; VStr " for user ";
                                  default VNone (tok !! "user_id")])])))
  ∧ (r = Ok None →
       out = (Raise (HTTPNotFound
                       ("Platform " +:+ platform_id +:+ " not found")),
              World st' asked (logs w)))
  ∧ (∀ m, out.1 = Raise (HTTPNotFound m) ↔
          (r = Ok None ∧ m = "Platform " +:+ platform_id +:+ " not found")
          ∨ r = Raise (HTTPNotFound m)).
Proof.
  intros Hstore asked out.
  assert (Hout : out =
    match r with
    | Ok (Some d) =>
        (Ok d,
         World st' asked
           (logs w ++ [(INFO, [VStr "Retrieved platform "; VStr platform_id;
                               VStr " for user ";
                               default VNone (tok !! "user_id")])]))
    | Ok None =>
        (Raise (HTTPNotFound ("Platform " +:+ platform_id +:+ " not found")),
         World st' asked (logs w))
    | Raise e =>
        if is_not_found e then (Raise e, World st' asked (logs w))
        else (Raise (HTTPInternalServerError
                       ("Failed to retrieve platform " +:+ platform_id)),
              World st' asked
                (logs w ++ [(ERROR, [VStr "Error retrieving platform ";
                                     VStr platform_id; VStr ": ";
                                     VStr (exn_str e)])]))
    end).
  { subst out asked. unfold_service. unfold_monad. simpl. rewrite Hstore.
    destruct r as [[d|]|e]; [done|done|by destruct e]. }
  split; [|split].
  - intros d ->. exact Hout.
  - intros ->. exact Hout.
  - intros m. rewrite Hout. destruct r as [[d|]|e]; simpl.
    + split; [done|]. by intros [[? _]|?].
    + split; [intros [= <-]; by left|].
      intros [[_ ->]|?]; done.
    + destruct e; simpl; (split; [intros [= <-]; by right|]);
        by intros [[? _]|[= ->]].
Qed.

Lemma create_platform_raises (data : gmap string value) (token bc : value)
    (w w' : world S) (e : exn) :
  create_platform mongo coll data token bc w = (Raise e, w') →
  is_forbidden e = true
  ∨ ∃ cause, e = HTTPInternalServerError
                   ("Failed to create platform: " +:+ cause).
Proof.
  unfold create_platform, try_except.
  match goal with
  | |- context [match ?body w with _ => _ end] =>
      destruct (body w) as [[p|e0] w0]
  end; [done|].
  destruct e0; unfold_monad; simpl; intros [= <- <-]; eauto.
Qed.

Lemma update_platform_raises (platform_id : string)
    (data : gmap string value) (token bc : value) (w w' : world S)
    (e : exn) :
  update_platform mongo coll platform_id data token bc w = (Raise e, w') →
  is_forbidden e = true ∨ is_not_found e = true
  ∨ e = HTTPInternalServerError
          ("Failed to update platform " +:+ platform_id).
Proof.
  unfold update_platform, try_except.
  match goal with
  | |- context [match ?body w with _ => _ end] =>
      destruct (body w) as [[p|e0] w0]
  end; [done|].
  destruct e0; unfold_monad; simpl; intros [= <- <-]; auto.
Qed.

(** X2. Whatever the store and the token do, an exception that leaves a
    service operation is one of the HTTP errors its handler names:
    [HTTPForbidden] or [HTTPInternalServerError] "Failed to create
    platform: ..." for create, [HTTPBadRequest] or the fixed
    [HTTPInternalServerError] for list, [HTTPNotFound] or the fixed
    [HTTPInternalServerError] for read, and [HTTPForbidden],
    [HTTPNotFound] or the fixed [HTTPInternalServerError] for update. No
    other exception reaches the caller. *)
Theorem service_raises_only_http_errors (r : request) (w w' : world S)
    (e : exn) :
  serve mongo coll r w = (Raise e, w') →
  (∀ cls msg, e ≠ PyException cls msg)
  ∧ match r with
    | Create _ _ _ =>
        is_forbidden e = true
        ∨ ∃ cause, e = HTTPInternalServerError
                         ("Failed to create platform: " +:+ cause)
    | List _ _ _ _ _ _ _ =>
        is_bad_request e = true
        ∨ e = HTTPInternalServerError "Failed to retrieve platforms"
    | Read platform_id _ _ =>
        is_not_found e = true
        ∨ e = HTTPInternalServerError
                ("Failed to retrieve platform " +:+ platform_id)
    | Update platform_id _ _ _ =>
        is_forbidden e = true ∨ is_not_found e = true
        ∨ e = HTTPInternalServerError
                ("Failed to update platform " +:+ platform_id)
    end.
Proof.
  intros Hrun.
  assert (Hclass :
    match r with
    | Create _ _ _ =>
        is_forbidden e = true
        ∨ ∃ cause, e = HTTPInternalServerError
                         ("Failed to create platform: " +:+ cause)
    | List _ _ _ _ _ _ _ =>
        is_bad_request e = true
        ∨ e = HTTPInternalServerError "Failed to retrieve platforms"
    | Read platform_id _ _ =>
        is_not_found e = true
        ∨ e = HTTPInternalServerError
                ("Failed to retrieve platform " +:+ platform_id)
    | Update platform_id _ _ _ =>
        is_forbidden e = true ∨ is_not_found e = true
        ∨ e = HTTPInternalServerError
                ("Failed to update platform " +:+ platform_id)
    end).
  { revert Hrun.
    destruct r as [data token bc|token bc name after_id limit sort_by order
                  |platform_id token bc|platform_id data token bc];
      unfold serve, bind at 1.
    - destruct (create_platform _ _ _ _ _ _) as [[p|e0] w0] eqn:Hop;
        [done|]. intros [= -> <-]. by eapply create_platform_raises.
    - destruct (get_platforms _ _ _ _ _ _ _ _ _ _) as [[p|e0] w0] eqn:Hop;
        [done|]. intros [= -> <-]. by eapply get_platforms_raises.
    - destruct (get_platform _ _ _ _ _ _) as [[p|e0] w0] eqn:Hop;
        [done|]. intros [= -> <-]. by eapply get_platform_raises.
    - destruct (update_platform _ _ _ _ _ _ _) as [[p|e0] w0] eqn:Hop;
        [done|]. intros [= -> <-]. by eapply update_platform_raises. }
  split; [|exact Hclass].
  intros cls msg ->.
  destruct r; simpl in Hclass;
    repeat match goal with
           | H : _ ∨ _ |- _ => destruct H
           | H : ∃ _, _ |- _ => destruct H
           end; done.
Qed.

(** X3. A token that is no dictionary ([None], for one) makes the log line
    after a successful write fail: [create_platform] and [update_platform]
    then raise [HTTPInternalServerError] although the store has taken the
    write. *)
Theorem write_kept_when_token_has_no_get (token bc : value) (w : world S)
    (st' : S) :
  (∀ d, token ≠ VDict d) →
  (∀ data new_id,
     create_document mongo coll (stamped data bc) (store w)
       = (Ok new_id, st') →
     create_platform mongo coll data token bc w
     = (Raise (HTTPInternalServerError
                 ("Failed to create platform: '" +:+ type_name token
                  +:+ "' object has no attribute 'get'")),
        World st' (calls w ++ [CreateDocument coll (stamped data bc)])
          (logs w ++ [(ERROR, [VStr "Error creating platform: ";
                               VStr (exn_str (no_get token))])])))
  ∧ (∀ platform_id data updated,
       Forall (λ f, data !! f = None) restricted_fields →
       update_document mongo coll platform_id (<["saved" := bc]> data)
         (store w) = (Ok (Some updated), st') →
       update_platform mongo coll platform_id data token bc w
       = (Raise (HTTPInternalServerError
                   ("Failed to update platform " +:+ platform_id)),
          World st'
            (calls w ++
               [UpdateDocument coll platform_id (<["saved" := bc]> data)])
            (logs w ++ [(ERROR, [VStr "Error updating platform ";
                                 VStr platform_id; VStr ": ";
                                 VStr (exn_str (no_get token))])]))).
Proof.
  intros Htoken. split.
  - intros data new_id Hstore. unfold_service. unfold_monad. simpl.
    rewrite Hstore. destruct token; try done. by destruct (Htoken d).
  - intros platform_id data updated Hclean Hstore.
    unfold_service. unfold bind at 1 2, try_except, ret.
    rewrite reject_fields_clean by done.
    rewrite set_data_of_clean by done.
    unfold_monad. simpl. rewrite Hstore.
    destruct token; try done. by destruct (Htoken d).
Qed.

(** X4. [_validate_update_data] accepts a payload exactly when it has none
    of [_id], [created], [saved]; it never touches the world, and keys
    other than these three are never a reason to reject. *)
Theorem validate_update_data_accepts (data : gmap string value)
    (w : world S) :
  (_validate_update_data data w = (Ok tt, w)
   ↔ Forall (λ f, data !! f = None) restricted_fields)
  ∧ (_validate_update_data (S:=S) data w).2 = w
  ∧ (∀ k v, k ∉ restricted_fields →
       (_validate_update_data (S:=S) (<[k := v]> data) w).1
       = (_validate_update_data (S:=S) data w).1).
Proof.
  unfold _validate_update_data.
  split; [|split].
  - split.
    + rewrite reject_fields_spec.
      destruct (list_find _ restricted_fields) as [[i f]|] eqn:Hfind;
        [done|]. intros _.
      apply list_find_None in Hfind.
      eapply Forall_impl; [exact Hfind|]. intros f Hf. simpl in Hf.
      by apply eq_None_not_Some.
    + apply reject_fields_clean.
  - rewrite reject_fields_spec.
    by destruct (list_find _ restricted_fields) as [[i f]|].
  - intros k v Hk. rewrite !reject_fields_spec.
    assert (Hsame : ∀ f, f ∈ restricted_fields →
              (<[k := v]> data) !! f = data !! f).
    { intros f Hf. apply lookup_insert_ne. by intros ->. }
    unfold restricted_fields in *. cbn [list_find].
    rewrite !Hsame by set_solver.
    repeat case_decide; done.
Qed.
End ServiceOutcomes.

Section Footprint.
Context {S : Type} (mongo : MongoIO S) (coll : string).

Lemma engine_calls (c : Collection) (name after_id : option string)
    (limit : Z) (sort_by order : string) (allowed : list string)
    (w : world S) :
  let out :=
    execute_infinite_scroll_query mongo c name after_id limit sort_by order
      allowed w in
  (calls out.2 = calls w ∧ ∃ m, out.1 = Raise (HTTPBadRequest m))
  ∨ ∃ dir cursor,
      calls out.2
      = calls w ++ [Find c (Query name cursor) sort_by dir (limit + 1)].
Proof.
  unfold execute_infinite_scroll_query.
  destruct (limit <? 1); [left; eauto|].
  destruct (100 <? limit); [left; eauto|].
  destruct (negb _); [left; eauto|].
  destruct (parse_order order) as [dir|]; [|left; eauto].
  destruct (parse_cursor after_id) as [cursor|]; [|left; eauto].
  right. exists dir, cursor.
  unfold collection_find. unfold_monad. simpl.
  by destruct (find mongo _ _ _ _ _ _) as [[rows|e] st'].
Qed.

(** The calls of [get_platforms] are [get_collection] and those of the
    engine. *)
Lemma get_platforms_calls (token bc : value) (name after_id : option string)
    (limit : option Z) (sort_by order : option string) (w : world S) :
  calls (get_platforms mongo coll token bc name after_id limit sort_by
           order w).2
  = match get_collection mongo coll (store w) with
    | (Ok c, st1) =>
        calls (execute_infinite_scroll_query mongo c name after_id
                 (default 10 limit) (default "name" sort_by)
                 (default "asc" order) ALLOWED_SORT_FIELDS
                 (World st1 (calls w ++ [GetCollection coll]) (logs w))).2
    | (Raise _, _) => calls w ++ [GetCollection coll]
    end.
Proof.
  unfold get_platforms, _check_permission, mongo_get_collection.
  set (engine := execute_infinite_scroll_query mongo).
  unfold_monad. simpl.
  destruct (get_collection _ _ _) as [[c|e] st1]; simpl; [|by destruct e].
  destruct (engine _ _ _ _ _ _ _ _) as [[p|e] w2]; simpl.
  - by destruct token.
  - by destruct e.
Qed.

Lemma update_platform_calls (platform_id : string)
    (data : gmap string value) (token bc : value) (w : world S) :
  calls (update_platform mongo coll platform_id data token bc w).2
  = if decide (Forall (λ f, data !! f = None) restricted_fields)
    then calls w ++
           [UpdateDocument coll platform_id (<["saved" := bc]> data)]
    else calls w.
Proof.
  case_decide as Hclean.
  - unfold_service. unfold bind at 1 2, try_except, ret.
    rewrite reject_fields_clean by done.
    rewrite set_data_of_clean by done.
    unfold_monad. simpl.
    destruct (update_document _ _ _ _ _) as [[[d|]|e] st']; simpl.
    + by destruct token.
    + done.
    + by destruct e.
  - unfold_service. unfold bind at 1 2, try_except, ret.
    rewrite reject_fields_spec.
    destruct (list_find _ restricted_fields) as [[i f]|] eqn:Hfind; [done|].
    destruct Hclean.
    apply list_find_None in Hfind.
    eapply Forall_impl; [exact Hfind|]. intros f Hf. simpl in Hf.
    by apply eq_None_not_Some.
Qed.

(** X5. The calls a service operation makes on the store, whatever their
    outcome: create makes one [create_document] with the stamped payload;
    read makes one [get_document]; update makes none when the payload is
    rejected and else one [update_document]; list makes [get_collection]
    and at most one query for [limit + 1] rows. The read operations never
    write. *)
Theorem store_call_footprint (r : request) (w : world S) :
  let made := calls (serve mongo coll r w).2 in
  match r with
  | Create data _ bc =>
      made = calls w ++ [CreateDocument coll (stamped data bc)]
  | Read platform_id _ _ =>
      made = calls w ++ [GetDocument coll platform_id]
  | Update platform_id data _ bc =>
      (made = calls w ∧ ¬ Forall (λ f, data !! f = None) restricted_fields)
      ∨ (made = calls w ++
                  [UpdateDocument coll platform_id (<["saved" := bc]> data)]
         ∧ Forall (λ f, data !! f = None) restricted_fields)
  | List _ _ name _ limit sort_by _ =>
      made = calls w ++ [GetCollection coll]
      ∨ ∃ c dir cursor,
          made = calls w ++ [GetCollection coll] ++
                   [Find c (Query name cursor) (default "name" sort_by) dir
                      (default 10 limit + 1)]
  end
  ∧ match r with
    | List _ _ _ _ _ _ _ | Read _ _ _ =>
        ∃ cs, made = calls w ++ cs ∧ forallb is_read_call cs = true
    | _ => True
    end.
Proof.
  intros made.
  assert (Hmade :
    match r with
    | Create data _ bc =>
        made = calls w ++ [CreateDocument coll (stamped data bc)]
    | Read platform_id _ _ =>
        made = calls w ++ [GetDocument coll platform_id]
    | Update platform_id data _ bc =>
        (made = calls w
         ∧ ¬ Forall (λ f, data !! f = None) restricted_fields)
        ∨ (made = calls w ++
                    [UpdateDocument coll platform_id
                       (<["saved" := bc]> data)]
           ∧ Forall (λ f, data !! f = None) restricted_fields)
    | List _ _ name _ limit sort_by _ =>
        made = calls w ++ [GetCollection coll]
        ∨ ∃ c dir cursor,
            made = calls w ++ [GetCollection coll] ++
                     [Find c (Query name cursor) (default "name" sort_by)
                        dir (default 10 limit + 1)]
    end).
  { subst made.
    destruct r as [data token bc|token bc name after_id limit sort_by order
                  |platform_id token bc|platform_id data token bc];
      unfold serve.
    - unfold_service. unfold_monad. simpl.
      destruct (create_document _ _ _ _) as [[new_id|e] st']; simpl.
      + by destruct token.
      + by destruct e.
    - unfold bind, ret.
      pose proof (get_platforms_calls token bc name after_id limit sort_by
                    order w) as Hlist.
      destruct (get_platforms _ _ _ _ _ _ _ _ _ w) as [[p|e] w2];
        simpl in *; rewrite Hlist; clear Hlist.
      all: destruct (get_collection _ _ _) as [[c|e0] st1]; [|by left].
      all: match goal with
           | |- context [execute_infinite_scroll_query ?m ?c ?n ?a ?l ?s ?o
                           ?al ?w1] =>
               destruct (engine_calls c n a l s o al w1)
                 as [[-> _]|(dir & cursor & ->)]
           end.
      all: first [ by left
                 | right; exists c, dir, cursor; simpl;
                   by rewrite <- (assoc_L (++)) ].
    - unfold_service. unfold_monad. simpl.
      destruct (get_document _ _ _ _) as [[[d|]|e] st']; simpl.
      + by destruct token.
      + done.
      + by destruct e.
    - unfold bind, ret.
      pose proof (update_platform_calls platform_id data token bc w)
        as Hupdate.
      destruct (update_platform _ _ _ _ _ _ w) as [[p|e] w2];
        simpl in *; rewrite Hupdate; case_decide; auto. }
  split; [exact Hmade|].
  destruct r; try done.
  - destruct Hmade as [->|(c & dir & cursor & ->)]; eauto.
  - rewrite Hmade. eauto.
Qed.
End Footprint.

Section OrderCheck.
Context {S : Type} (mongo : MongoIO S) (coll : string).

Lemma engine_order (c : Collection) (name after_id : option string)
    (limit : Z) (sort_by order : string) (allowed : list string)
    (w : world S) :
  1 ≤ limit ≤ 100 → sort_by ∈ allowed → parse_order order = None →
  execute_infinite_scroll_query mongo c name after_id limit sort_by order
    allowed w
  = (Raise (HTTPBadRequest "order must be 'asc' or 'desc'"), w).
Proof.
  intros Hlimit Hsort Horder. unfold execute_infinite_scroll_query.
  destruct (Z.ltb_spec limit 1); [lia|].
  destruct (Z.ltb_spec 100 limit); [lia|].
  rewrite bool_decide_eq_true_2 by done. simpl. by rewrite Horder.
Qed.

(** X6. With the other parameters in order, a sort order that is neither
    ["asc"] nor ["desc"] (the comparison is by exact text) makes the list
    operation raise [HTTPBadRequest] "order must be 'asc' or 'desc'"
    without a query; an absent order is ["asc"]. *)
Theorem order_must_be_asc_or_desc (token bc : value)
    (name after_id : option string) (limit : Z) (sort_by order : string)
    (w : world S) (c : Collection) (st1 : S) :
  order ≠ "asc" → order ≠ "desc" →
  1 ≤ limit ≤ 100 → sort_by ∈ ALLOWED_SORT_FIELDS →
  get_collection mongo coll (store w) = (Ok c, st1) →
  get_platforms mongo coll token bc name after_id (Some limit) (Some sort_by)
    (Some order) w
  = (Raise (HTTPBadRequest "order must be 'asc' or 'desc'"),
     World st1 (calls w ++ [GetCollection coll]) (logs w))
  ∧ get_platforms mongo coll token bc name after_id (Some limit)
      (Some sort_by) None w
    = get_platforms mongo coll token bc name after_id (Some limit)
        (Some sort_by) (Some "asc") w.
Proof.
  intros Hasc Hdesc Hlimit Hsort Hhandle. split; [|done].
  apply (get_platforms_rejected mongo coll _ _ _ _ _ _ _ _ c); [done|].
  intros w1. apply engine_order; [done..|].
  unfold parse_order.
  destruct (String.eqb_spec order "asc"); [done|].
  by destruct (String.eqb_spec order "desc").
Qed.
End OrderCheck.

(** * Properties of the routes *)

Section RouteFacts.
Context {S : Type} (mongo : MongoIO S) (coll : string).
Context (py_int : string → option Z).

(** X7. When [create_flask_token] raises, each of the four routes raises
    that exception at once: no call on the store, no log line. *)
Theorem routes_stop_at_a_bad_token (request : flask_request) (e : exn)
    (platform_id : string) (w : world S) :
  bearer request = Raise e →
  PlatformRoutes.create_platform mongo coll request w = (Raise e, w)
  ∧ PlatformRoutes.get_platforms mongo coll py_int request w = (Raise e, w)
  ∧ PlatformRoutes.get_platform mongo coll request platform_id w
    = (Raise e, w)
  ∧ PlatformRoutes.update_platform mongo coll request platform_id w
    = (Raise e, w).
Proof.
  intros Hbearer.
  repeat split;
    unfold PlatformRoutes.create_platform, PlatformRoutes.get_platforms,
      PlatformRoutes.get_platform, PlatformRoutes.update_platform;
    unfold bind at 1; unfold lift; by rewrite Hbearer.
Qed.
End RouteFacts.

Section RouteOutcomes.
Context {S : Type} (mongo : MongoIO S) (coll : string).
Context (py_int : string → option Z).

(** X8. In the list route a [limit] parameter that is missing, or whose
    text [int] does not read, is taken as 10: the request behaves exactly
    as the same request with a limit that reads as 10. It is not an
    error, unlike a limit that reads as a number out of range. *)
Theorem list_route_limit_falls_back (request : flask_request) (ten : string)
    (w : world S) :
  (args request !! "limit" = None
   ∨ ∃ text, args request !! "limit" = Some text ∧ py_int text = None) →
  py_int ten = Some 10 →
  PlatformRoutes.get_platforms mongo coll py_int request w
  = PlatformRoutes.get_platforms mongo coll py_int
      (with_arg "limit" ten request) w.
Proof.
  intros Hlimit Hten. unfold PlatformRoutes.get_platforms, with_arg.
  cbn [bearer crumb args].
  rewrite !(lookup_insert_ne (args request) "limit") by done.
  replace (args_get_int py_int (<["limit" := ten]> (args request)) "limit" 10)
    with 10
    by (unfold args_get_int; by rewrite lookup_insert_eq, Hten).
  replace (args_get_int py_int (args request) "limit" 10) with 10; [done|].
  unfold args_get_int.
  destruct Hlimit as [->|(text & -> & ->)]; done.
Qed.

(** The run of the create route once the token is good and the create has
    succeeded, by what the read answers. *)
Lemma create_route_run (request : flask_request)
    (tok : gmap string value) (at_time correlation_id : value)
    (w : world S) (new_id : string) (st1 st2 : S)
    (r : option (gmap string value)) :
  bearer request = Ok tok →
  crumb request !! "at_time" = Some at_time →
  crumb request !! "correlation_id" = Some correlation_id →
  create_document mongo coll
    (stamped (default ∅ (json request)) (VDict (crumb request))) (store w)
    = (Ok new_id, st1) →
  get_document mongo coll new_id st1 = (Ok r, st2) →
  let asked :=
    calls w ++
      [CreateDocument coll
         (stamped (default ∅ (json request)) (VDict (crumb request)));
       GetDocument coll new_id] in
  let created_line :=
    (INFO, [VStr "Created platform "; VStr new_id; VStr " for user ";
            default VNone (tok !! "user_id")]) in
  PlatformRoutes.create_platform mongo coll request w
  = match r with
    | Some platform =>
        (Ok (platform, 201),
         World st2 asked
           (logs w ++
              [created_line;
               (INFO, [VStr "Retrieved platform "; VStr new_id;
                       VStr " for user "; default VNone (tok !! "user_id")]);
               (INFO, [VStr "create_platform"; VStr " Success "; at_time;
                       VStr ", "; correlation_id])]))
    | None =>
        (Raise (HTTPNotFound ("Platform " +:+ new_id +:+ " not found")),
         World st2 asked (logs w ++ [created_line]))
    end.
Proof.
  intros Hbearer Htime Hcorrelation Hcreate Hget asked created_line.
  subst asked created_line.
  unfold PlatformRoutes.create_platform, PlatformRoutes.success_line.
  unfold_service. unfold_monad. unfold lift, py_getitem.
  rewrite Hbearer. simpl. rewrite Hcreate. simpl. rewrite Hget.
  rewrite <- !(assoc_L (++)). simpl.
  destruct r as [platform|]; [|done].
  simpl. rewrite Htime, Hcorrelation. simpl.
  by rewrite <- !(assoc_L (++)).
Qed.

(** X9. A POST whose token is good and whose create succeeds makes two
    calls on the store, the create and a read of the identifier the store
    assigned. It answers 201 with the document read back, not with the
    payload; when the read finds nothing it raises [HTTPNotFound] although
    the document has been created. *)
Theorem create_route_reads_back (request : flask_request)
    (tok : gmap string value) (at_time correlation_id : value)
    (w : world S) (new_id : string) (st1 st2 : S)
    (r : option (gmap string value)) :
  bearer request = Ok tok →
  crumb request !! "at_time" = Some at_time →
  crumb request !! "correlation_id" = Some correlation_id →
  create_document mongo coll
    (stamped (default ∅ (json request)) (VDict (crumb request))) (store w)
    = (Ok new_id, st1) →
  get_document mongo coll new_id st1 = (Ok r, st2) →
  let out := PlatformRoutes.create_platform mongo coll request w in
  store out.2 = st2
  ∧ calls out.2
    = calls w ++
        [CreateDocument coll
           (stamped (default ∅ (json request)) (VDict (crumb request)));
         GetDocument coll new_id]
  ∧ (∀ platform, r = Some platform → out.1 = Ok (platform, 201))
  ∧ (r = None →
     out.1 = Raise (HTTPNotFound ("Platform " +:+ new_id +:+ " not found"))).
Proof.
  intros Hbearer Htime Hcorrelation Hcreate Hget out. subst out.
  rewrite (create_route_run request tok at_time correlation_id w new_id
             st1 st2 r) by done.
  destruct r as [platform|]; simpl; repeat split; try done.
  by intros ? [= <-].
Qed.
End RouteOutcomes.

(** ** The routes on the reference store *)

Lemma lookup_doc_new (docs : list document) (oid : N)
    (fields : gmap string value) :
  Forall (λ d, doc_id d ≠ oid) docs →
  lookup_doc (docs ++ [Document oid fields]) oid = Some (Document oid fields).
Proof.
  intros Hfresh. unfold lookup_doc.
  rewrite list_find_app_r by by apply list_find_None.
  cbn [list_find doc_id]. by rewrite decide_True.
Qed.

(** X10. On the reference store, where the next identifier is not yet in
    the collection, a POST with a good token answers 201 with the created
    document: the identifier the store assigned under [_id] (a supplied
    one is gone), [created] and [saved] equal to the breadcrumb of the
    request, and every other field as posted. *)
Theorem post_answers_created_document
    (bson_compare : value → value → comparison)
    (name_matches : string → gmap string value → bool) (coll : string)
    (request : flask_request) (tok : gmap string value)
    (at_time correlation_id : value) (w : world mem_state) :
  bearer request = Ok tok →
  crumb request !! "at_time" = Some at_time →
  crumb request !! "correlation_id" = Some correlation_id →
  valid_oid (next_oid (store w)) →
  Forall (λ d, doc_id d ≠ next_oid (store w)) (docs_of (store w) coll) →
  ∃ platform,
    (PlatformRoutes.create_platform (mem_store bson_compare name_matches)
       coll request w).1 = Ok (platform, 201)
    ∧ platform !! "_id" = Some (VStr (oid_str (next_oid (store w))))
    ∧ platform !! "created" = Some (VDict (crumb request))
    ∧ platform !! "saved" = Some (VDict (crumb request))
    ∧ ∀ k, k ∉ restricted_fields →
        platform !! k = default ∅ (json request) !! k.
Proof.
  intros Hbearer Htime Hcorrelation Hvalid Hfresh.
  set (data := stamped (default ∅ (json request)) (VDict (crumb request))).
  set (oid := next_oid (store w)) in *.
  exists (doc_to_dict (Document oid data)).
  pose proof (stamped_lookup (default ∅ (json request))
                (VDict (crumb request))) as (_ & Hcreated & Hsaved & Hrest).
  fold data in Hcreated, Hsaved, Hrest.
  split; [|unfold doc_to_dict; cbn [doc_id doc_fields]; split; [|split; [|split]]].
  - rewrite (create_route_run (mem_store bson_compare name_matches)
               coll request tok at_time correlation_id w (oid_str oid)
               (mem_create coll data (store w)).2
               (mem_create coll data (store w)).2
               (Some (doc_to_dict (Document oid data)))); try done.
    cbn [get_document mem_store]. unfold mem_get.
    rewrite parse_oid_str by done.
    unfold docs_of at 1. cbn [mem_create snd collections].
    rewrite lookup_insert_eq. cbn [default]. unfold id.
    by rewrite lookup_doc_new.
  - apply lookup_insert_eq.
  - by rewrite lookup_insert_ne.
  - by rewrite lookup_insert_ne.
  - intros k Hk. rewrite lookup_insert_ne; [by apply Hrest|].
    intros <-. apply Hk. by left.
Qed.

Section EmptyBodies.
Context {S : Type} (mongo : MongoIO S) (coll : string).

(** X11. A request whose JSON body is the empty object, or the JSON
    [null], is not rejected: it is the payload [{}]. The POST route
    creates a document made of [created] and [saved] alone, and the PATCH
    route sends the store the single field [saved], so the stamp of the
    target changes although nothing was asked. *)
Theorem empty_body_still_writes (request : flask_request)
    (tok : gmap string value) (platform_id : string) (w : world S) :
  bearer request = Ok tok →
  json request = None ∨ json request = Some ∅ →
  (∃ more,
     calls (PlatformRoutes.create_platform mongo coll request w).2
     = calls w ++
         CreateDocument coll
           (<["saved" := VDict (crumb request)]>
              (<["created" := VDict (crumb request)]> ∅)) :: more)
  ∧ calls (PlatformRoutes.update_platform mongo coll request platform_id
             w).2
    = calls w ++
        [UpdateDocument coll platform_id
           {["saved" := VDict (crumb request)]}].
Proof.
  intros Hbearer Hjson.
  assert (Hdata : default ∅ (json request) = (∅ : gmap string value))
    by (by destruct Hjson as [->| ->]).
  split.
  - unfold PlatformRoutes.create_platform, PlatformRoutes.success_line.
    rewrite Hdata. unfold_service. unfold_monad. unfold lift, py_getitem.
    rewrite Hbearer. simpl.
    destruct (create_document _ _ _ _) as [[new_id|e] st1]; simpl.
    + destruct (get_document _ _ _ _) as [[[d|]|e] st2]; simpl.
      * exists [GetDocument coll new_id].
        rewrite <- !(assoc_L (++)). simpl.
        destruct (crumb request !! "at_time"); simpl;
          [destruct (crumb request !! "correlation_id")|]; done.
      * exists [GetDocument coll new_id]. by rewrite <- !(assoc_L (++)).
      * exists [GetDocument coll new_id].
        rewrite <- !(assoc_L (++)). by destruct e.
    + exists []. by destruct e.
  - unfold PlatformRoutes.update_platform, PlatformRoutes.success_line.
    rewrite Hdata. unfold bind at 1. unfold lift. rewrite Hbearer.
    pose proof (update_platform_calls mongo coll platform_id ∅ (VDict tok)
                  (VDict (crumb request)) w) as Hcalls.
    rewrite decide_True in Hcalls by (by repeat constructor).
    unfold bind at 1.
    destruct (update_platform _ _ _ _ _ _ w) as [[p|e] w2];
      simpl in Hcalls; [|done].
    unfold_monad. unfold py_getitem.
    destruct (crumb request !! "at_time"); simpl;
      [destruct (crumb request !! "correlation_id")|]; done.
Qed.
End EmptyBodies.

(** ** The further theorems at sample requests *)

Lemma get_platform_outcome_witness :
  get_document ref_store "Platform" (oid_str 9)
    (store (fresh_world shuffled)) = (Ok None, shuffled)
  ∧ get_platform ref_store "Platform" (oid_str 9) (VDict sample_claims)
      sample_breadcrumb (fresh_world shuffled)
    = (Raise (HTTPNotFound ("Platform " +:+ oid_str 9 +:+ " not found")),
       World shuffled [GetDocument "Platform" (oid_str 9)] []).
Proof.
  split; [reflexivity|].
  destruct (get_platform_outcome ref_store "Platform" (oid_str 9)
              sample_claims sample_breadcrumb (fresh_world shuffled)
              (Ok None) shuffled eq_refl) as (_ & Hmissing & _).
  exact (Hmissing eq_refl).
Defined.

Lemma service_raises_only_http_errors_witness :
  serve (failing_store store_down) "Platform"
    (Read (oid_str 2) sample_token sample_breadcrumb) (fresh_world tt)
  = (Raise (HTTPInternalServerError
              ("Failed to retrieve platform " +:+ oid_str 2)),
     World tt [GetDocument "Platform" (oid_str 2)]
       [(ERROR, [VStr "Error retrieving platform "; VStr (oid_str 2);
                 VStr ": "; VStr "connection refused"])])
  ∧ (∀ cls msg,
       HTTPInternalServerError ("Failed to retrieve platform " +:+ oid_str 2)
       ≠ PyException cls msg).
Proof.
  split; [reflexivity|].
  exact (proj1 (service_raises_only_http_errors (failing_store store_down)
                  "Platform"
                  (Read (oid_str 2) sample_token sample_breadcrumb)
                  (fresh_world tt) _ _ eq_refl)).
Defined.

Lemma none_is_no_dict : ∀ d, VNone ≠ VDict d.
Proof. done. Qed.

Lemma write_kept_witness :
  (∀ d, VNone ≠ VDict d)
  ∧ create_document ref_store "Platform" (stamped payload_rename VNone)
      (store (fresh_world shuffled))
    = (Ok (oid_str 4),
       (mem_create "Platform" (stamped payload_rename VNone) shuffled).2)
  ∧ create_platform ref_store "Platform" payload_rename VNone VNone
      (fresh_world shuffled)
    = (Raise (HTTPInternalServerError
                "Failed to create platform: 'NoneType' object has no attribute 'get'"),
       World (mem_create "Platform" (stamped payload_rename VNone) shuffled).2
         [CreateDocument "Platform" (stamped payload_rename VNone)]
         [(ERROR, [VStr "Error creating platform: ";
                   VStr "'NoneType' object has no attribute 'get'"])]).
Proof.
  split; [exact none_is_no_dict|]. split; [reflexivity|].
  exact (proj1 (write_kept_when_token_has_no_get ref_store "Platform" VNone
                  VNone (fresh_world shuffled) _ none_is_no_dict)
           payload_rename (oid_str 4) eq_refl).
Defined.

Lemma validate_update_data_witness :
  Forall (λ f, payload_rename !! f = None) restricted_fields
  ∧ _validate_update_data payload_rename (fresh_world shuffled)
    = (Ok tt, fresh_world shuffled).
Proof.
  split; [exact payload_rename_clean|].
  exact (proj2 (proj1 (validate_update_data_accepts payload_rename
                         (fresh_world shuffled)))
           payload_rename_clean).
Defined.

Lemma order_witness :
  "ASC" ≠ "asc" ∧ "ASC" ≠ "desc" ∧ 1 ≤ 10 ≤ 100
  ∧ "name" ∈ ALLOWED_SORT_FIELDS
  ∧ get_collection ref_store "Platform" (store (fresh_world shuffled))
    = (Ok {| coll_name := "Platform" |}, shuffled)
  ∧ get_platforms ref_store "Platform" sample_token sample_breadcrumb None
      None (Some 10) (Some "name") (Some "ASC") (fresh_world shuffled)
    = (Raise (HTTPBadRequest "order must be 'asc' or 'desc'"),
       World shuffled [GetCollection "Platform"] []).
Proof.
  assert (Hlimit : 1 ≤ 10 ≤ 100) by lia.
  assert (Hasc : "ASC" ≠ "asc") by done.
  assert (Hdesc : "ASC" ≠ "desc") by done.
  split; [exact Hasc|]. split; [exact Hdesc|]. split; [exact Hlimit|].
  split; [exact name_allowed|]. split; [reflexivity|].
  exact (proj1 (order_must_be_asc_or_desc ref_store "Platform" sample_token
                  sample_breadcrumb None None 10 "name" "ASC"
                  (fresh_world shuffled) {| coll_name := "Platform" |}
                  shuffled Hasc Hdesc Hlimit name_allowed eq_refl)).
Defined.

Lemma bad_token_witness :
  bearer refused_request = Raise unauthorized
  ∧ PlatformRoutes.create_platform ref_store "Platform" refused_request
      (fresh_world shuffled)
    = (Raise unauthorized, fresh_world shuffled).
Proof.
  split; [reflexivity|].
  exact (proj1 (routes_stop_at_a_bad_token ref_store "Platform" digits_only
                  refused_request unauthorized (oid_str 2)
                  (fresh_world shuffled) eq_refl)).
Defined.

Lemma limit_falls_back_witness :
  (args odd_limit_request !! "limit" = None
   ∨ ∃ text, args odd_limit_request !! "limit" = Some text
             ∧ digits_only text = None)
  ∧ digits_only "10" = Some 10
  ∧ PlatformRoutes.get_platforms ref_store "Platform" digits_only
      odd_limit_request (fresh_world shuffled)
    = PlatformRoutes.get_platforms ref_store "Platform" digits_only
        (with_arg "limit" "10" odd_limit_request) (fresh_world shuffled).
Proof.
  assert (Hodd : args odd_limit_request !! "limit" = None
                 ∨ ∃ text, args odd_limit_request !! "limit" = Some text
                           ∧ digits_only text = None).
  { right. exists "abc". split; reflexivity. }
  split; [exact Hodd|]. split; [reflexivity|].
  exact (list_route_limit_falls_back ref_store "Platform" digits_only
           odd_limit_request "10" (fresh_world shuffled) Hodd eq_refl).
Defined.

Lemma create_route_witness :
  bearer post_request = Ok sample_claims
  ∧ crumb post_request !! "at_time" = Some (VStr "sometime")
  ∧ crumb post_request !! "correlation_id" = Some (VStr "correlation_ID")
  ∧ (PlatformRoutes.create_platform (faulty_reader "lost") "Platform"
       post_request (fresh_world tt)).1
    = Raise (HTTPNotFound "Platform lost not found")
  ∧ calls (PlatformRoutes.create_platform (faulty_reader "lost") "Platform"
             post_request (fresh_world tt)).2
    = [CreateDocument "Platform"
         (stamped payload_with_id (VDict route_crumb));
       GetDocument "Platform" "lost"].
Proof.
  do 3 (split; [reflexivity|]).
  destruct (create_route_reads_back (faulty_reader "lost") "Platform"
              post_request sample_claims (VStr "sometime")
              (VStr "correlation_ID") (fresh_world tt) "lost" tt tt None
              eq_refl eq_refl eq_refl eq_refl eq_refl)
    as (_ & Hcalls & _ & Hmissing).
  split; [exact (Hmissing eq_refl)|exact Hcalls].
Defined.

Lemma post_witness :
  bearer post_request = Ok sample_claims
  ∧ crumb post_request !! "at_time" = Some (VStr "sometime")
  ∧ crumb post_request !! "correlation_id" = Some (VStr "correlation_ID")
  ∧ valid_oid (next_oid (store (fresh_world shuffled)))
  ∧ Forall (λ d, doc_id d ≠ next_oid (store (fresh_world shuffled)))
      (docs_of (store (fresh_world shuffled)) "Platform")
  ∧ ∃ platform,
      (PlatformRoutes.create_platform ref_store "Platform" post_request
         (fresh_world shuffled)).1 = Ok (platform, 201)
      ∧ platform !! "_id" = Some (VStr (oid_str 4))
      ∧ platform !! "created" = Some (VDict route_crumb)
      ∧ platform !! "saved" = Some (VDict route_crumb)
      ∧ ∀ k, k ∉ restricted_fields →
          platform !! k = default ∅ (json post_request) !! k.
Proof.
  assert (Hvalid : valid_oid (next_oid (store (fresh_world shuffled))))
    by reflexivity.
  assert (Hfresh : Forall (λ d, doc_id d ≠ next_oid (store (fresh_world shuffled)))
                     (docs_of (store (fresh_world shuffled)) "Platform")).
  { repeat constructor; discriminate. }
  do 3 (split; [reflexivity|]). split; [exact Hvalid|].
  split; [exact Hfresh|].
  exact (post_answers_created_document string_order name_is "Platform"
           post_request sample_claims (VStr "sometime")
           (VStr "correlation_ID") (fresh_world shuffled) eq_refl eq_refl
           eq_refl Hvalid Hfresh).
Defined.

Lemma empty_body_witness :
  bearer empty_patch = Ok sample_claims
  ∧ (json empty_patch = None ∨ json empty_patch = Some ∅)
  ∧ calls (PlatformRoutes.update_platform ref_store "Platform" empty_patch
             (oid_str 2) (fresh_world shuffled)).2
    = [] ++ [UpdateDocument "Platform" (oid_str 2)
               {["saved" := VDict (crumb empty_patch)]}].
Proof.
  split; [reflexivity|]. split; [by right|].
  exact (proj2 (empty_body_still_writes ref_store "Platform" empty_patch
                  sample_claims (oid_str 2) (fresh_world shuffled) eq_refl
                  (or_intror eq_refl))).
Defined.
